(** * The retrieval pipeline of rag_strategies

    A shallow embedding of [rag_strategies/retrieval]: the summary-first
    search of [query_processor.py], the answer synthesis of
    [response_generator.py] and the pipeline of [rag_system.py].

    Conventions of the embedding.
    - A Python [str] is a [string] whose characters are code points below
      256; [lower] and [split] follow Python on that range.
    - A Python [float] is an exact rational ([Q]); rounding is not modelled.
    - A dictionary read with fixed keys is a record whose optional keys are
      [option] fields; a dictionary used as a bag of keys is a [gmap].
    - The embedding service, the store and the completion service are
      parameters ([Services]); every call to them is recorded in a trace.
    - The documents the store returns are well-typed: a chunk has a [str]
      under [content]; what the code does on other documents is not
      modelled.
    - Calls to the logger have no effect on any result and are left out. *)

From Stdlib Require Import QArith Ascii.
From stdpp Require Import gmap strings list pretty sorting.


(** ** Python built-ins used by the pipeline *)

Module Py.

(** [str.isspace] on one character: TAB..CR, FS..US, space, NEL and NBSP. *)
Definition isspace (c : Ascii.ascii) : bool :=
  let n := Ascii.N_of_ascii c in
  ((9 <=? n) && (n <=? 13) || (28 <=? n) && (n <=? 32)
   || (n =? 133) || (n =? 160))%N.

(** [str.lower] on one character: A..Z and the Latin-1 capitals
    (U+00C0..U+00DE without the multiplication sign U+00D7) move up by 32. *)
Definition lower_char (c : Ascii.ascii) : Ascii.ascii :=
  let n := Ascii.N_of_ascii c in
  if ((65 <=? n) && (n <=? 90)
      || (192 <=? n) && (n <=? 222) && negb (n =? 215))%N
  then Ascii.ascii_of_N (n + 32)
  else c.

Fixpoint lower (s : string) : string :=
  match s with
  | EmptyString => EmptyString
  | String c s' => String (lower_char c) (lower s')
  end.

(** [s.split()] with no separator: the maximal runs of characters that are
    not whitespace, in order. *)
Fixpoint split (s : string) : list string :=
  match s with
  | EmptyString => []
  | String c s' =>
      if isspace c then split s'
      else match s' with
           | EmptyString => [String c EmptyString]
           | String d _ =>
               if isspace d then String c EmptyString :: split s'
               else match split s' with
                    | w :: ws => String c w :: ws
                    | [] => [String c EmptyString]
                    end
           end
  end.

(** [sep.join(ws)] *)
Fixpoint join (sep : string) (ws : list string) : string :=
  match ws with
  | [] => EmptyString
  | [w] => w
  | w :: ws' => w +:+ sep +:+ join sep ws'
  end.

(** [min(a, b)]: the first argument unless the second is strictly smaller. *)
Definition min (a b : Q) : Q := if Qle_bool a b then a else b.

(** [sum(xs)] *)
Definition sum (xs : list Q) : Q := foldl Qplus 0%Q xs.

(** [len(xs)] as a number to divide by. *)
Definition len {A} (xs : list A) : Q := inject_Z (Z.of_nat (length xs)).

(** [l.sort(key=key, reverse=True)]: Python's sort is stable, also with
    [reverse=True]; an insertion sort that places an element behind every
    element of strictly greater key and before the rest. *)
Fixpoint insert_desc {A} (key : A → Q) (x : A) (l : list A) : list A :=
  match l with
  | [] => [x]
  | y :: l' =>
      if Qle_bool (key y) (key x) then x :: y :: l'
      else y :: insert_desc key x l'
  end.

Definition sort_reverse {A} (key : A → Q) (l : list A) : list A :=
  foldr (insert_desc key) [] l.

(** The values a metadata bag can hold. *)
#[warnings="-register-all"]
Inductive pyval :=
| PNone
| PBool (b : bool)
| PInt (n : Z)
| PFloat (q : Q)
| PStr (s : string)
| PList (l : list pyval)
| PDict (kvs : list (string * pyval)).

End Py.

Abbreviation pyval := Py.pyval.
Abbreviation pydict := (gmap string Py.pyval).

(** ** Records of the evidence store *)

(** A document [_id]: the store generates an ObjectId when a record is
    inserted without one (as the ingestion does); a Python [str] sent in a
    query is a string value, which the store never equates with an
    ObjectId. *)
Inductive bson_id :=
| ObjectId (hex : string)
| StrId (s : string).

Global Instance bson_id_eq_dec : EqDecision bson_id.
Proof. solve_decision. Defined.

(** [str(_id)] *)
Definition str_id (i : bson_id) : string :=
  match i with
  | ObjectId hex => hex
  | StrId s => s
  end.

(** A chunk dictionary. [content] is always present and a [str] (the code
    reads it with [chunk['content']] and lower-cases it); the other keys are
    read with [.get]. The chunk documents the store returns are taken to be
    of this shape: on a document without content or with a content that is
    not a [str], [_process_chunks] raises, which is not modelled. *)
Record Chunk := mkChunk {
  chunk_id : option bson_id;          (* "_id" *)
  chunk_content : string;             (* "content" *)
  chunk_metadata : option pydict;     (* "metadata" *)
  chunk_root_id : option string;      (* "root_id" *)
  chunk_summary_id : option bson_id;  (* "summary_id" *)
  chunk_score : option Q              (* "score" *)
}.

(** A summary dictionary as projected by the summary search. *)
Record Summary := mkSummary {
  summary_id : bson_id;               (* "_id" *)
  summary_root_id : option string;    (* "root_id" *)
  summary_page_title : option string; (* "page_title" *)
  summary_text : option string;       (* "summary" *)
  summary_metadata : option pydict;   (* "metadata" *)
  summary_score : option Q            (* "score" *)
}.

(** The dictionary [_process_chunks] builds for a surviving chunk: all five
    keys are present. *)
Record ProcessedChunk := mkProcessed {
  pc_content : string;
  pc_metadata : pydict;
  pc_root_id : option string;
  pc_summary_id : option bson_id;
  pc_score : Q
}.

(** A processed chunk read again as a chunk dictionary. *)
Definition as_chunk (p : ProcessedChunk) : Chunk :=
  {| chunk_id := None;
     chunk_content := pc_content p;
     chunk_metadata := Some (pc_metadata p);
     chunk_root_id := pc_root_id p;
     chunk_summary_id := pc_summary_id p;
     chunk_score := Some (pc_score p) |}.

(** ** External services and the trace of calls *)

(** An exception, as the text [str(e)] the handlers read. *)
Definition exn := string.

Inductive result (A : Type) :=
| Ok (a : A)
| Raise (e : exn).
Arguments Ok {A} a.
Arguments Raise {A} e.

(** The [$match] stage of a chunk aggregation. *)
Inductive match_stage :=
| MatchAll                                  (* no [$match] stage *)
| MatchAnchored (summary_ids : list bson_id) (root_ids : list string)
| MatchNin (ids : list string).

(** A chunk aggregation: [$search] with [knnBeta], then the optional
    [$match] and [$limit] stages ([$project] keeps the keys of [Chunk]). *)
Record chunk_pipeline := mkPipeline {
  pl_vector : list Q;
  pl_k : nat;
  pl_match : match_stage;
  pl_limit : option nat
}.

Inductive event :=
| EmbedQuery (query : string)
| SummaryAggregate (vector : list Q) (k : nat)
| ChunkAggregate (p : chunk_pipeline)
| LlmInvoke (prompt : string).

Definition trace := list event.

(** The collaborators. Each answer may depend on the number of calls made
    before it, so that a service can fail once and answer later. The two
    [knn] functions give the documents the [$search] stage ranks nearest,
    best first, with the search score under ["score"]. *)
Record Services := mkServices {
  embed_query : nat → string → result (list Q);
  summary_knn : nat → list Q → nat → result (list Summary);
  chunks_knn : nat → list Q → nat → result (list Chunk);
  llm_ainvoke : nat → string → result string;
  utcnow : nat → string
}.

(** Computations that call services: they read and extend the trace and
    end with a value or an exception. *)
Definition M (A : Type) : Type := trace → result A * trace.

Global Instance M_ret : MRet M := λ A a t, (Ok a, t).

Global Instance M_bind : MBind M := λ A B k m t,
  match m t with
  | (Ok a, t') => k a t'
  | (Raise e, t') => (Raise e, t')
  end.

Definition raise {A} (e : exn) : M A := λ t, (Raise e, t).

(** [try: body except Exception as e: handler] *)
Definition try_except {A} (body : M A) (handler : exn → M A) : M A := λ t,
  match body t with
  | (Ok a, t') => (Ok a, t')
  | (Raise e, t') => handler e t'
  end.

(** One awaited call: the answer is read first, then the call is logged. *)
Definition call {A} (ev : event) (answer : nat → result A) : M A := λ t,
  (answer (length t), t ++ [ev]).

(** [datetime.utcnow().isoformat()] *)
Definition now_iso (svc : Services) : M string := λ t,
  (Ok (utcnow svc (length t)), t).

(** The dictionary [search] returns. *)
Record SearchResult := mkSearchResult {
  sr_chunks : list Chunk;
  sr_summaries : list Summary;
  sr_metadata : pydict
}.

(** ** [query_processor.py] *)

Module QueryProcessor.

(** [' '.join(content.lower().split())] *)
Definition _normalize_content (content : string) : string :=
  Py.join " " (Py.split (Py.lower content)).

(** The dictionary literal of the loop body. *)
Definition processed_chunk (chunk : Chunk) : ProcessedChunk :=
  {| pc_content := chunk_content chunk;
     pc_metadata := default ∅ (chunk_metadata chunk);
     pc_root_id := chunk_root_id chunk;
     pc_summary_id := chunk_summary_id chunk;
     pc_score := default 0.7%Q (chunk_score chunk) |}.

(** One iteration of [for chunk in chunks], on the pair
    [(seen_content, processed_chunks)]. *)
Definition process_step (st : gset string * list ProcessedChunk)
    (chunk : Chunk) : gset string * list ProcessedChunk :=
  let normalized_content := _normalize_content (chunk_content chunk) in
  if decide (normalized_content ∈ st.1) then st
  else ({[normalized_content]} ∪ st.1, st.2 ++ [processed_chunk chunk]).

(** The list [processed_chunks] when the loop ends, before it is sorted. *)
Definition dedup_loop (chunks : list Chunk) : list ProcessedChunk :=
  (foldl process_step (∅, []) chunks).2.

Definition _process_chunks (chunks : list Chunk) : list ProcessedChunk :=
  Py.sort_reverse pc_score (dedup_loop chunks).

(** Whether a document passes the [$match] stage. [$in] needs the field to
    be present with a listed value; [$nin] passes a document whose [_id] is
    not among the listed strings. *)
Definition chunk_matches (m : match_stage) (c : Chunk) : bool :=
  match m with
  | MatchAll => true
  | MatchAnchored summary_ids root_ids =>
      match chunk_summary_id c with
      | Some i => bool_decide (i ∈ summary_ids)
      | None => false
      end
      || match chunk_root_id c with
         | Some r => bool_decide (r ∈ root_ids)
         | None => false
         end
  | MatchNin ids =>
      match chunk_id c with
      | Some i => negb (bool_decide (i ∈ StrId <$> ids))
      | None => true
      end
  end.

(** The stages behind [$search], applied to the documents it ranked. *)
Definition run_stages (p : chunk_pipeline) (docs : list Chunk) : list Chunk :=
  let matched := filter (λ c, chunk_matches (pl_match p) c) docs in
  match pl_limit p with
  | Some n => take n matched
  | None => matched
  end.

(** The three pipelines of the chunk collection. *)
Definition anchored_pipeline (query_embedding : list Q)
    (summaries : list Summary) : chunk_pipeline :=
  let summary_ids := summary_id <$> summaries in
  let root_ids :=
    omap (λ s, match summary_root_id s with
               | Some r => if decide (r = "") then None else Some r
               | None => None
               end) summaries in
  {| pl_vector := query_embedding; pl_k := 10;
     pl_match := MatchAnchored summary_ids root_ids; pl_limit := Some 10 |}.

Definition fallback_pipeline (query_embedding : list Q) : chunk_pipeline :=
  {| pl_vector := query_embedding; pl_k := 5;
     pl_match := MatchAll; pl_limit := None |}.

Definition direct_pipeline (query_embedding : list Q)
    (existing_chunk_ids : list string) : chunk_pipeline :=
  {| pl_vector := query_embedding; pl_k := 10;
     pl_match := MatchNin existing_chunk_ids; pl_limit := Some 5 |}.

Section Search.
Context (svc : Services).

(** [await self.chunks_collection.aggregate(pipeline).to_list(None)] *)
Definition aggregate_chunks (p : chunk_pipeline) : M (list Chunk) :=
  docs ← call (ChunkAggregate p)
            (λ n, chunks_knn svc n (pl_vector p) (pl_k p));
  mret (run_stages p docs).

Definition _search_summaries (query_embedding : list Q) : M (list Summary) :=
  try_except
    (call (SummaryAggregate query_embedding 5)
          (λ n, summary_knn svc n query_embedding 5))
    (λ _, mret []).

Definition _get_chunks_from_summaries (summaries : list Summary)
    (query_embedding : list Q) : M (list Chunk) :=
  try_except
    (match summaries with
     | [] => mret []
     | _ =>
         results ← aggregate_chunks (anchored_pipeline query_embedding summaries);
         match results with
         | _ :: _ => mret results
         | [] => aggregate_chunks (fallback_pipeline query_embedding)
         end
     end)
    (λ _, mret []).

Definition _direct_chunk_search (query_embedding : list Q)
    (existing_chunk_ids : list string) : M (list Chunk) :=
  try_except
    (aggregate_chunks (direct_pipeline query_embedding existing_chunk_ids))
    (λ _, mret []).

(** [str(c['_id'])]; a chunk without the key raises [KeyError('_id')]. *)
Definition str_of_chunk_id (c : Chunk) : M string :=
  match chunk_id c with
  | Some i => mret (str_id i)
  | None => raise "'_id'"
  end.

(** Lines 55-62 of [search]: the chunk list handed to [_process_chunks]. *)
Definition with_additional_chunks (query_embedding : list Q)
    (chunks_from_summaries : list Chunk) : M (list Chunk) :=
  if bool_decide (length chunks_from_summaries < 3) then
    existing_chunk_ids ← mapM str_of_chunk_id chunks_from_summaries;
    additional_chunks ← _direct_chunk_search query_embedding existing_chunk_ids;
    mret (chunks_from_summaries ++ additional_chunks)
  else mret chunks_from_summaries.

Definition search (query : string) : M SearchResult :=
  try_except
    (query_embedding ← call (EmbedQuery query) (λ n, embed_query svc n query);
     relevant_summaries ← _search_summaries query_embedding;
     chunks_from_summaries ←
       _get_chunks_from_summaries relevant_summaries query_embedding;
     chunks ← with_additional_chunks query_embedding chunks_from_summaries;
     let processed_chunks := _process_chunks chunks in
     mret {| sr_chunks := as_chunk <$> processed_chunks;
             sr_summaries := relevant_summaries;
             sr_metadata :=
               {[ "total_chunks" := Py.PInt (Z.of_nat (length processed_chunks));
                  "summary_count" := Py.PInt (Z.of_nat (length relevant_summaries));
                  "search_type" := Py.PStr "hybrid" ]} |})
    (λ e, raise e).

End Search.
End QueryProcessor.

(** ** [response_generator.py] *)

(** The inner ["metadata"] dictionary of a citation. *)
Record CitationMeta := mkCitationMeta {
  cm_document_path : pyval;   (* "document_path" *)
  cm_metadata : pydict;       (* "metadata" *)
  cm_confidence : Q           (* "confidence" *)
}.

Record Citation := mkCitation {
  cit_content : string;       (* "content" *)
  cit_metadata : CitationMeta (* "metadata" *)
}.

(** The response dictionary. *)
Record Response := mkResponse {
  r_answer : string;
  r_citations : list Citation;
  r_metadata : pydict;
  r_confidence : Q
}.

(** [not l] on a list *)
Definition is_nil {A} (l : list A) : bool :=
  match l with
  | [] => true
  | _ :: _ => false
  end.

Module ResponseGenerator.

(** The f-string of [_generate_comprehensive_response]. *)
Definition comprehensive_prompt (query context : string) : string :=
  "
            Answer the following question using the provided context. 
            
            Question: "
  +:+ query +:+ "

            Context:
            "
  +:+ context +:+ "

            Requirements:
            1. Answer directly and concisely - aim for 3-4 sentences unless more detail is absolutely necessary
            2. Use only information from the provided context
            3. If multiple sources provide different information, note the differences briefly
            4. If the information is incomplete, acknowledge what's missing
            5. Use simple text formatting without markdown, bullets, or special characters
            6. Start with a direct answer, then provide necessary context or conditions
            7. Do not use headers, sections, or extensive formatting
            8. Do not use bold, italics, or other markdown formatting
            9. Keep the response focused and to the point
            10. If a longer response is needed, organize it in clear paragraphs

            Example of good response format:
            The maximum debt-to-income ratio for conventional loans is typically 45%, but it can go up to 50% with strong compensating factors such as excellent credit score and significant reserves. Different loan types may have varying requirements, with FHA allowing up to 57% in some cases. The specific limit depends on the loan program, property type, and borrower's overall financial profile.

            Answer:
            ".

(** The f-string of [_generate_chunks_response]. *)
Definition chunks_prompt (query information : string) : string :=
  "
            Answer the following question using only the provided information.
            
            Question: "
  +:+ query +:+ "

            Information:
            "
  +:+ information +:+ "

            Requirements:
            1. Use only the information from the provided content
            2. Be concise and direct - aim for 3-4 sentences unless more detail is absolutely necessary
            3. If information is missing or unclear, state that explicitly
            4. Use simple text formatting without markdown, bullets, or special characters
            5. If there are conditions or exceptions, include them briefly in the main response
            6. Start with a direct answer, then provide necessary context or conditions
            7. Do not use headers, sections, or extensive formatting
            8. Do not use bold, italics, or other markdown formatting
            9. Keep the response focused and to the point
            10. If a longer response is needed, organize it in clear paragraphs

            Example of good response format:
            A property can be considered a primary residence if the client occupies it as their main home within 60 days of closing and intends to live there. The client must not own or occupy another primary residence at the same time. Special provisions exist for military personnel and remote workers, where occupancy by a spouse or family member may be permitted with proper documentation.

            Answer:
            ".

Definition summary_part (summary : Summary) : string :=
  "
            Summary:
            " +:+ default "" (summary_text summary) +:+ "
            ".

Definition detail_part (chunk : Chunk) : string :=
  "
            Detail:
            " +:+ chunk_content chunk +:+ "
            ".

Definition _create_comprehensive_context (summaries : list Summary)
    (chunks : list Chunk) : string :=
  let context_parts := (summary_part <$> summaries) ++ (detail_part <$> chunks) in
  Py.join "

" context_parts.

(** [enumerate(chunks, 1)] numbers the chunks from 1. *)
Definition source_part (i : nat) (chunk : Chunk) : string :=
  "
            Source " +:+ pretty (S i) +:+ ":
            " +:+ chunk_content chunk +:+ "
            ".

Definition _format_chunks_for_prompt (chunks : list Chunk) : string :=
  Py.join "
" (imap source_part chunks).

Definition _create_chunk_citations (chunks : list Chunk) : list Citation :=
  (λ chunk,
     {| cit_content := chunk_content chunk;
        cit_metadata :=
          {| cm_document_path :=
               default (Py.PStr "")
                 (default ∅ (chunk_metadata chunk) !! "component_path");
             cm_metadata := default ∅ (chunk_metadata chunk);
             cm_confidence := default 0.7%Q (chunk_score chunk) |} |})
  <$> chunks.

Definition summary_citation (summary : Summary) : Citation :=
  {| cit_content := default "" (summary_text summary);
     cit_metadata :=
       {| cm_document_path := Py.PStr "summary";
          cm_metadata := default ∅ (summary_metadata summary);
          cm_confidence := 0.9%Q |} |}.

Definition _create_citations (summaries : list Summary)
    (chunks : list Chunk) : list Citation :=
  (summary_citation <$> summaries) ++ _create_chunk_citations chunks.

(** [cit['metadata']['confidence']] *)
Definition citation_confidence (cit : Citation) : Q :=
  cm_confidence (cit_metadata cit).

Definition _calculate_confidence (citations : list Citation)
    (summaries : list Summary) : Q :=
  if is_nil citations then 0%Q
  else
    let scores := [] in
    let scores := if is_nil summaries then scores else scores ++ [0.9%Q] in
    let citation_scores := citation_confidence <$> citations in
    let scores :=
      if is_nil citation_scores then scores
      else scores ++ [(Py.sum citation_scores / Py.len citation_scores)%Q] in
    Py.min 0.95%Q (Py.sum scores / Py.len scores)%Q.

Definition _calculate_chunk_confidence (citations : list Citation) : Q :=
  if is_nil citations then 0%Q
  else
    let scores := citation_confidence <$> citations in
    Py.min 0.95%Q (Py.sum scores / Py.len scores)%Q.

Definition _create_no_content_response : Response :=
  {| r_answer := "I apologize, but I couldn't find relevant information to answer your question accurately.";
     r_citations := [];
     r_metadata := {[ "error" := Py.PStr "No relevant content found" ]};
     r_confidence := 0%Q |}.

Section Generate.
Context (svc : Services).

Definition _create_error_response (error : string) : M Response :=
  error_time ← now_iso svc;
  mret {| r_answer := "I apologize, but I encountered an error while processing your question.";
          r_citations := [];
          r_metadata := {[ "error" := Py.PStr error;
                           "error_time" := Py.PStr error_time ]};
          r_confidence := 0%Q |}.

Definition _generate_comprehensive_response (query : string)
    (search_result : SearchResult) (metadata : option pydict) : M Response :=
  try_except
    (let summaries := sr_summaries search_result in
     let chunks := sr_chunks search_result in
     let context := _create_comprehensive_context summaries chunks in
     let prompt := comprehensive_prompt query context in
     answer ← call (LlmInvoke prompt) (λ n, llm_ainvoke svc n prompt);
     let citations := _create_citations summaries chunks in
     mret {| r_answer := answer;
             r_citations := citations;
             r_metadata :=
               {[ "sources_used" :=
                    Py.PDict [("summaries", Py.PInt (Z.of_nat (length summaries)));
                              ("chunks", Py.PInt (Z.of_nat (length chunks)))] ]};
             r_confidence := _calculate_confidence citations summaries |})
    (λ e, raise e).

Definition _generate_chunks_response (query : string)
    (search_result : SearchResult) (metadata : option pydict) : M Response :=
  try_except
    (let chunks := sr_chunks search_result in
     let prompt := chunks_prompt query (_format_chunks_for_prompt chunks) in
     answer ← call (LlmInvoke prompt) (λ n, llm_ainvoke svc n prompt);
     let citations := _create_chunk_citations chunks in
     mret {| r_answer := answer;
             r_citations := citations;
             r_metadata :=
               {[ "sources_used" :=
                    Py.PDict [("chunks", Py.PInt (Z.of_nat (length chunks)))] ]};
             r_confidence := _calculate_chunk_confidence citations |})
    (λ e, raise e).

(** [response['metadata'].update({...})]: the keys of the caller's
    metadata win over the two fixed keys, and the update wins over what the
    branch had stored. *)
Definition update_metadata (response : Response) (processed_at : string)
    (search_type : pyval) (metadata : option pydict) : Response :=
  {| r_answer := r_answer response;
     r_citations := r_citations response;
     r_metadata :=
       (default ∅ metadata
        ∪ {[ "processed_at" := Py.PStr processed_at;
             "search_type" := search_type ]})
       ∪ r_metadata response;
     r_confidence := r_confidence response |}.

(** The [try] block of [generate_response]. *)
Definition generate_response_body (query : string)
    (search_result : SearchResult) (metadata : option pydict) : M Response :=
  if is_nil (sr_chunks search_result) && is_nil (sr_summaries search_result)
  then mret _create_no_content_response
  else
    response ←
      (if negb (is_nil (sr_summaries search_result))
       then _generate_comprehensive_response query search_result metadata
       else _generate_chunks_response query search_result metadata);
    processed_at ← now_iso svc;
    mret (update_metadata response processed_at
            (default (Py.PStr "unknown")
               (sr_metadata search_result !! "search_type"))
            metadata).

Definition generate_response (query : string) (search_result : SearchResult)
    (metadata : option pydict) : M Response :=
  try_except (generate_response_body query search_result metadata)
    (λ e, _create_error_response e).

End Generate.
End ResponseGenerator.

(** ** [rag_system.py] *)

Module RAGSystem.
Section Pipeline.
Context (svc : Services).

(** The dictionary of the [except] clause of [process_query]. *)
Definition pipeline_error_response (e : exn) : Response :=
  {| r_answer := "I apologize, but I encountered an error processing your question.";
     r_citations := [];
     r_confidence := 0%Q;
     r_metadata := {[ "error" := Py.PStr e ]} |}.

Definition process_query (query : string) (metadata : option pydict)
    : M Response :=
  try_except
    (search_results ← QueryProcessor.search svc query;
     response ←
       ResponseGenerator.generate_response svc query search_results metadata;
     processed_at ← now_iso svc;
     mret {| r_answer := r_answer response;
             r_citations := r_citations response;
             r_metadata :=
               <[ "sources_used" :=
                    Py.PDict
                      [("summaries",
                        Py.PInt (Z.of_nat (length (sr_summaries search_results))));
                       ("chunks",
                        Py.PInt (Z.of_nat (length (sr_chunks search_results))))] ]>
                 (<[ "processed_at" := Py.PStr processed_at ]>
                    (r_metadata response));
             r_confidence := r_confidence response |})
    (λ e, mret (pipeline_error_response e)).

End Pipeline.
End RAGSystem.

(** ** Definitions used by the statements *)

Global Instance Qeq_decision (x y : Q) : Decision (x == y)%Q := Qeq_dec x y.

(** A word: not empty and free of whitespace. *)
Fixpoint no_space (s : string) : bool :=
  match s with
  | EmptyString => true
  | String c s' => negb (Py.isspace c) && no_space s'
  end.

Definition is_word (w : string) : Prop := w ≠ "" ∧ no_space w = true.

(** The deduplication key of a chunk and of a processed chunk. *)
Definition chunk_key (c : Chunk) : string :=
  QueryProcessor._normalize_content (chunk_content c).

Definition processed_key (p : ProcessedChunk) : string :=
  QueryProcessor._normalize_content (pc_content p).

(** The loop of [_process_chunks] as a recursive function: the chunks whose
    key is neither in [seen] nor carried by an earlier chunk. *)
Fixpoint first_seen (seen : gset string) (cs : list Chunk)
    : list ProcessedChunk :=
  match cs with
  | [] => []
  | c :: cs' =>
      if decide (chunk_key c ∈ seen) then first_seen seen cs'
      else QueryProcessor.processed_chunk c
           :: first_seen ({[chunk_key c]} ∪ seen) cs'
  end.

(** Following the specification's words: a content in lower case with its
    whitespace collapsed, read off the text in one pass. Whitespace before
    the first word and after the last is dropped, and every run of
    whitespace between two words becomes one space. [started] tells that a
    character was written, [pending] that whitespace was passed since. *)
Fixpoint spec_collapse (started pending : bool) (s : string) : string :=
  match s with
  | EmptyString => EmptyString
  | String c s' =>
      if Py.isspace c then spec_collapse started started s'
      else
        let written := String (Py.lower_char c) (spec_collapse true false s') in
        if pending then String " " written else written
  end.

Definition spec_normalized (content : string) : string :=
  spec_collapse false false content.

(** Two contents that differ in case and whitespace only. *)
Definition same_text (a b : string) : Prop :=
  spec_normalized a = spec_normalized b.

Global Instance same_text_dec a b : Decision (same_text a b).
Proof. unfold same_text. apply _. Defined.

(** Descending order of keys: [b] may follow [a]. *)
Definition desc {A} (key : A → Q) (a b : A) : Prop := (key b <= key a)%Q.

(** Following the specification's words: the arithmetic mean, the cap at
    0.95 and the two aggregation rules of the confidence. *)
Definition arithmetic_mean (xs : list Q) : Q :=
  (foldr Qplus 0 xs / inject_Z (Z.of_nat (length xs)))%Q.

Definition capped (x : Q) : Q := if Qle_bool x 0.95%Q then x else 0.95%Q.

Definition spec_chunks_only_confidence (confidences : list Q) : Q :=
  match confidences with
  | [] => 0%Q
  | _ :: _ => capped (arithmetic_mean confidences)
  end.

Definition spec_comprehensive_confidence (summary_present : bool)
    (confidences : list Q) : Q :=
  let components :=
    (if summary_present then [0.9%Q] else [])
    ++ (if is_nil confidences then [] else [arithmetic_mean confidences]) in
  capped (arithmetic_mean components).

(** The component path stored in a chunk's metadata, when there is one. *)
Definition component_path (c : Chunk) : option pyval :=
  chunk_metadata c ≫= (λ md, md !! "component_path").

(** What a chunk aggregation found, a failure counting as nothing found. *)
Definition found_or_nothing (p : chunk_pipeline)
    (answer : result (list Chunk)) : list Chunk :=
  match answer with
  | Ok docs => QueryProcessor.run_stages p docs
  | Raise _ => []
  end.

(** The ids of the collected chunks as strings, when every chunk has one. *)
Definition collected_ids (cs : list Chunk) : option (list string) :=
  mapM (λ c, str_id <$> chunk_id c) cs.

(** ** Example data *)

Module Examples.

Definition example_chunk (i content summary : string) (score : Q) : Chunk :=
  mkChunk (Some (ObjectId i)) content None None (Some (ObjectId summary))
          (Some score).

Definition chunk_a := example_chunk "65f1c0de0000000000000a01" "alpha" "s1" 0.9%Q.
Definition chunk_b := example_chunk "65f1c0de0000000000000b02" "bravo" "s2" 0.8%Q.
Definition chunk_c := example_chunk "65f1c0de0000000000000c03" "charlie" "s2" 0.7%Q.
Definition chunk_d := example_chunk "65f1c0de0000000000000d04" "delta" "s2" 0.6%Q.
Definition chunk_e := example_chunk "65f1c0de0000000000000e05" "echo" "s2" 0.5%Q.
Definition chunk_f := example_chunk "65f1c0de0000000000000f06" "foxtrot" "s2" 0.4%Q.

(** Two spellings of one text, and a chunk without a score. *)
Definition chunk_loud := example_chunk "65f1c0de0000000000001007" "Repairs  MUST be done" "s1" 0.5%Q.
Definition chunk_quiet := example_chunk "65f1c0de0000000000001108" " repairs must be done " "s1" 0.9%Q.
Definition chunk_unscored : Chunk :=
  mkChunk (Some (ObjectId "65f1c0de0000000000001209")) "escrow holdback" None None None None.

(** A chunk the store scored 0. *)
Definition zero_score_chunk := example_chunk "65f1c0de0000000000001300" "zulu" "s2" 0%Q.

Definition summary_1 : Summary :=
  mkSummary (ObjectId "s1") None (Some "Repairs")
            (Some "Repairs before closing") None (Some 1%Q).

Definition the_query : string :=
  "Does a repair need to be completed prior to close?".

(** A store with one summary and six chunks, of which only the first hangs
    under the summary. *)
Definition svc_overlap : Services :=
  {| embed_query := λ _ _, Ok [1%Q];
     summary_knn := λ _ _ _, Ok [summary_1];
     chunks_knn := λ _ _ _,
       Ok [chunk_a; chunk_b; chunk_c; chunk_d; chunk_e; chunk_f];
     llm_ainvoke := λ _ _, Ok "Yes.";
     utcnow := λ n, "2024-01-01T00:00:0" +:+ pretty n |}.

(** A store whose nearest chunks all hang under another summary. *)
Definition svc_far : Services :=
  {| embed_query := λ _ _, Ok [1%Q];
     summary_knn := λ _ _ _, Ok [summary_1];
     chunks_knn := λ _ _ _, Ok [chunk_b; chunk_c];
     llm_ainvoke := λ _ _, Ok "Yes.";
     utcnow := λ n, "2024-01-01T00:00:0" +:+ pretty n |}.

(** An embedding service that is down. *)
Definition svc_embed_down : Services :=
  {| embed_query := λ _ _, Raise "connection refused";
     summary_knn := λ _ _ _, Ok [];
     chunks_knn := λ _ _ _, Ok [];
     llm_ainvoke := λ _ _, Ok "";
     utcnow := λ _, "2024-01-01T00:00:00" |}.

Definition no_evidence : SearchResult :=
  {| sr_chunks := []; sr_summaries := [];
     sr_metadata := {[ "search_type" := Py.PStr "hybrid" ]} |}.

End Examples.

(** * The rest of the pipeline, the ingestion helpers and the chat API *)

(** ** More string built-ins *)

Module PyText.

Definition LF : Ascii.ascii := Ascii.ascii_of_nat 10.
Definition CR : Ascii.ascii := Ascii.ascii_of_nat 13.

(** The texts of one, two and three line feeds, of a carriage return, and
    of a carriage return with a line feed. *)
Definition LF1 : string := String LF EmptyString.
Definition LF2 : string := String LF LF1.
Definition LF3 : string := String LF LF2.
Definition CR1 : string := String CR EmptyString.
Definition CRLF : string := String CR LF1.

(** [s.lstrip()], [s.rstrip()] and [s.strip()] *)
Fixpoint lstrip (s : string) : string :=
  match s with
  | EmptyString => EmptyString
  | String c s' => if Py.isspace c then lstrip s' else s
  end.

Fixpoint rstrip (s : string) : string :=
  match s with
  | EmptyString => EmptyString
  | String c s' =>
      match rstrip s' with
      | EmptyString => if Py.isspace c then EmptyString else String c EmptyString
      | r => String c r
      end
  end.

Definition strip (s : string) : string := rstrip (lstrip s).

(** [s.startswith(p)] *)
Fixpoint starts_with (p s : string) : bool :=
  match p with
  | EmptyString => true
  | String a p' =>
      match s with
      | EmptyString => false
      | String b s' => Ascii.eqb a b && starts_with p' s'
      end
  end.

(** [pat in s] *)
Fixpoint contains (pat s : string) : bool :=
  starts_with pat s
  || match s with
     | EmptyString => false
     | String _ s' => contains pat s'
     end.

(** [s.replace(old, new)] for a non-empty [old]: the occurrences are found
    from the left and do not overlap; [skip] counts the characters of a
    found occurrence that are still to be passed. *)
Fixpoint replace_go (old new : string) (skip : nat) (s : string) : string :=
  match s with
  | EmptyString => EmptyString
  | String c s' =>
      match skip with
      | S k => replace_go old new k s'
      | O =>
          if starts_with old s
          then new +:+ replace_go old new (String.length old - 1) s'
          else String c (replace_go old new 0 s')
      end
  end.

Definition replace (old new s : string) : string := replace_go old new 0 s.

(** [s.split(sep)] for a non-empty [sep]: the pieces between the
    occurrences of [sep], of which there is always at least one. *)
Fixpoint split_on_go (sep : string) (skip : nat) (s : string) : list string :=
  match s with
  | EmptyString => [EmptyString]
  | String c s' =>
      match skip with
      | S k => split_on_go sep k s'
      | O =>
          if starts_with sep s
          then EmptyString :: split_on_go sep (String.length sep - 1) s'
          else match split_on_go sep 0 s' with
               | piece :: pieces => String c piece :: pieces
               | [] => [String c EmptyString]
               end
      end
  end.

Definition split_on (sep s : string) : list string := split_on_go sep 0 s.

(** [re.sub(r' +', ' ', s)]: every run of spaces becomes one space (a
    space that stands before a space is dropped). *)
Fixpoint sub_spaces (s : string) : string :=
  match s with
  | EmptyString => EmptyString
  | String c s' =>
      if starts_with "  " s then sub_spaces s'
      else String c (sub_spaces s')
  end.

(** [re.sub(r'\n{3,}', '\n\n', s)]: every run of three or more line feeds
    becomes two line feeds (a line feed that stands before two more is
    dropped). *)
Fixpoint sub_newlines (s : string) : string :=
  match s with
  | EmptyString => EmptyString
  | String c s' =>
      if starts_with LF3 s then sub_newlines s'
      else String c (sub_newlines s')
  end.

(** [l[-n:]]; with [n = 0] the slice is the whole list. *)
Definition last_n {A} (n : nat) (l : list A) : list A :=
  match n with
  | O => l
  | S _ => drop (length l - n) l
  end.

End PyText.

(** ** [rag_system.py]: batches *)

(** An entry of the list [process_batch_queries] returns: a response, or the
    dictionary with ["error"] and ["query"] of its [except] clause. *)
Inductive batch_entry :=
| BatchResponse (response : Response)
| BatchError (error query : string).

(** The loop of [process_batch_queries] on the list [responses]. *)
Fixpoint batch_loop (svc : Services) (queries : list string)
    (metadata : option pydict) (responses : list batch_entry)
    : M (list batch_entry) :=
  match queries with
  | [] => mret responses
  | query :: rest =>
      entry ← try_except
                (response ← RAGSystem.process_query svc query metadata;
                 mret (BatchResponse response))
                (λ e, mret (BatchError e query));
      batch_loop svc rest metadata (responses ++ [entry])
  end.

Definition process_batch_queries (svc : Services) (queries : list string)
    (metadata : option pydict) : M (list batch_entry) :=
  batch_loop svc queries metadata [].

(** ** [ingestion/cleaner.py] *)

Module ContentCleaner.

(** The three substitutions and the final [strip]. The [except] clause of
    the source guards string operations that cannot fail on a [str]. *)
Definition _normalize_whitespace (text : string) : string :=
  let text := PyText.replace PyText.CRLF PyText.LF1 text in
  let text := PyText.sub_spaces text in
  let text := PyText.sub_newlines text in
  PyText.strip text.

Section Html.
(** [BeautifulSoup(content, 'html.parser').get_text(separator=...)], which
    may raise; [None] stands for the call without a separator. *)
Context (get_text : option string → string → result string).

Definition _remove_html_safely (content : string) : string :=
  match get_text (Some PyText.LF1) content with
  | Ok text => text
  | Raise _ => content
  end.

Definition _fallback_cleaning (content : string) : string :=
  match get_text None content with
  | Ok text => PyText.strip (Py.join " " (Py.split text))
  | Raise _ => PyText.strip content
  end.

(** Neither call of the [try] block raises, so [_fallback_cleaning] is
    never reached. *)
Definition clean_content (content : string) : string :=
  let cleaned := _remove_html_safely content in
  let cleaned := _normalize_whitespace cleaned in
  PyText.strip cleaned.

End Html.
End ContentCleaner.

(** ** [ingestion/processor.py] *)

Module DocumentProcessor.

(** [component_path.split('_')[0]] *)
Definition _extract_root_id (component_path : string) : string :=
  match PyText.split_on "_" component_path with
  | piece :: _ => piece
  | [] => EmptyString
  end.

End DocumentProcessor.

(** ** [ingestion/chunker.py] *)

(** The exceptions of the chunk parser. *)
Inductive py_error :=
| ValueError (msg : string)
| IndexError
| TypeError
| KeyError (key : string)
| JSONDecodeError
| ReError (msg : string)
| OtherError (name : string).

(** A value, or the exception raised instead. *)
Definition attempt (A : Type) : Type := (py_error + A)%type.

Module SemanticChunker.

(** The value under the key [k] of a parsed object. *)
Fixpoint dict_get (k : string) (kvs : list (string * pyval)) : option pyval :=
  match kvs with
  | [] => None
  | (k', v) :: kvs' => if String.eqb k' k then Some v else dict_get k kvs'
  end.

(** [d[k] = v] *)
Fixpoint dict_set (k : string) (v : pyval) (kvs : list (string * pyval))
    : list (string * pyval) :=
  match kvs with
  | [] => [(k, v)]
  | (k', v') :: kvs' =>
      if String.eqb k' k then (k', v) :: kvs' else (k', v') :: dict_set k v kvs'
  end.

(** [k in data] for a parsed value [data]: a key of an object, an element of
    an array, a substring of a string; the other values are not iterable. *)
Definition py_in (k : string) (data : pyval) : attempt bool :=
  match data with
  | Py.PDict kvs => inr (bool_decide (is_Some (dict_get k kvs)))
  | Py.PList l =>
      inr (existsb (λ x, match x with
                         | Py.PStr s => String.eqb s k
                         | _ => false
                         end) l)
  | Py.PStr s => inr (PyText.contains k s)
  | _ => inl TypeError
  end.

(** [all(k in data for k in ['content', 'chunk_metadata'])] *)
Definition has_required_fields (data : pyval) : attempt bool :=
  match py_in "content" data with
  | inr true => py_in "chunk_metadata" data
  | other => other
  end.

(** [data[k]] for a string [k]. *)
Definition py_getitem (data : pyval) (k : string) : attempt pyval :=
  match data with
  | Py.PDict kvs =>
      match dict_get k kvs with
      | Some v => inr v
      | None => inl (KeyError k)
      end
  | _ => inl TypeError
  end.

(** The repair of a chunk that [json.loads] rejected starts with a call of
    [re.sub] whose pattern ends in a closing parenthesis that no opening
    one precedes (its character 31). [re] rejects such a pattern when it
    compiles it, so the call raises [re.error] whatever the chunk is. *)
Definition re_sub_repair (cleaned_chunk : string) : attempt string :=
  inl (ReError "unbalanced parenthesis at position 31").

Section Parse.
(** [json.loads], and the code of the repair that stands behind the failing
    [re.sub] call. *)
Context (json_loads : string → attempt pyval).
Context (second_attempt : string → attempt pyval).

(** The response without its code fences. *)
Definition clean_response (llm_response : string) : string :=
  PyText.strip
    (PyText.replace "```" "" (PyText.replace "```json" "" llm_response)).

(** [[chunk.strip() for chunk in clean_response.split('###')
      if chunk.strip()]] *)
Definition raw_chunks_of (llm_response : string) : list string :=
  omap (λ chunk, match PyText.strip chunk with
                 | EmptyString => None
                 | stripped => Some stripped
                 end)
       (PyText.split_on "###" (clean_response llm_response)).

(** [json.loads(raw_chunk)] with its [except json.JSONDecodeError] clause. *)
Definition load_chunk (raw_chunk : string) : attempt pyval :=
  match json_loads raw_chunk with
  | inl JSONDecodeError =>
      let cleaned_chunk := PyText.replace PyText.LF1 " " raw_chunk in
      match re_sub_repair cleaned_chunk with
      | inr cleaned_chunk => second_attempt cleaned_chunk
      | inl e => inl e
      end
  | other => other
  end.

(** The body of the loop for the chunk of index [i]; the first log line
    reads [raw_chunk[31]]. *)
Definition parse_chunk (i : nat) (raw_chunk : string) : attempt pyval :=
  if String.length raw_chunk <=? 31 then inl IndexError
  else
    match load_chunk raw_chunk with
    | inl e => inl e
    | inr chunk_data =>
        match has_required_fields chunk_data with
        | inl e => inl e
        | inr false =>
            inl (ValueError ("Chunk " +:+ pretty (S i)
                             +:+ " format invalid: missing required fields"))
        | inr true =>
            match py_getitem chunk_data "content" with
            | inl e => inl e
            | inr (Py.PStr content) =>
                match chunk_data with
                | Py.PDict kvs =>
                    inr (Py.PDict
                           (dict_set "content"
                              (Py.PStr (PyText.replace "\n" PyText.LF1 content))
                              kvs))
                | _ => inl TypeError
                end
            | inr _ => inr chunk_data
            end
        end
    end.

Fixpoint parse_loop (i : nat) (raw_chunks : list string) (chunks : list pyval)
    : attempt (list pyval) :=
  match raw_chunks with
  | [] => inr chunks
  | raw_chunk :: rest =>
      match parse_chunk i raw_chunk with
      | inl e => inl e
      | inr chunk_data => parse_loop (S i) rest (chunks ++ [chunk_data])
      end
  end.

Definition _parse_chunks (llm_response : string) : attempt (list pyval) :=
  match raw_chunks_of llm_response with
  | [] => inl (ValueError "No chunks found in LLM response")
  | raw_chunks => parse_loop 0 raw_chunks []
  end.

End Parse.
End SemanticChunker.

(** ** [main.py] *)

Module ChatApi.

(** [MessageRequest.message_must_not_be_empty] *)
Definition message_must_not_be_empty (v : string) : result string :=
  match PyText.strip v with
  | EmptyString => Raise "Message cannot be empty"
  | stripped => Ok stripped
  end.

(** An entry of a conversation's history; [R] is the response dictionary. *)
Record HistoryEntry (R : Type) := mkHistoryEntry {
  he_message : string;
  he_response : R;
  he_timestamp : string
}.
Arguments mkHistoryEntry {R} _ _ _.

Section History.
Context {R : Type}.

(** [ConversationManager._update_history] on [self.conversations], with
    [self.max_history] and the time of the call. *)
Definition _update_history
    (conversations : gmap string (list (HistoryEntry R)))
    (max_history : nat) (conversation_id message : string) (response : R)
    (timestamp : string) : gmap string (list (HistoryEntry R)) :=
  let conversations :=
    match conversations !! conversation_id with
    | Some _ => conversations
    | None => <[conversation_id := []]> conversations
    end in
  let conversations :=
    alter (λ history, history ++ [mkHistoryEntry message response timestamp])
          conversation_id conversations in
  alter (PyText.last_n max_history) conversation_id conversations.

End History.
End ChatApi.

(** ** More definitions used by the statements *)

(** What the summary search found, a failure counting as nothing found. *)
Definition summaries_or_nothing (answer : result (list Summary))
    : list Summary :=
  match answer with
  | Ok found => found
  | Raise _ => []
  end.

(** The result dictionary [search] builds from the collected chunks. *)
Definition search_result_of (summaries : list Summary) (chunks : list Chunk)
    : SearchResult :=
  let processed_chunks := QueryProcessor._process_chunks chunks in
  {| sr_chunks := as_chunk <$> processed_chunks;
     sr_summaries := summaries;
     sr_metadata :=
       {[ "total_chunks" := Py.PInt (Z.of_nat (length processed_chunks));
          "summary_count" := Py.PInt (Z.of_nat (length summaries));
          "search_type" := Py.PStr "hybrid" ]} |}.

(** A chunk is anchored to the summaries when its summary id is the id of
    one of them or its root id is the non-empty root id of one of them. *)
Definition anchored_to (summaries : list Summary) (c : Chunk) : Prop :=
  (∃ i, chunk_summary_id c = Some i ∧ i ∈ summary_id <$> summaries)
  ∨ (∃ r, chunk_root_id c = Some r ∧ r ≠ ""
          ∧ ∃ s, s ∈ summaries ∧ summary_root_id s = Some r).

(** An event of the store that searches chunks with the vector [v]. *)
Definition chunk_search_with (v : list Q) (ev : event) : Prop :=
  match ev with
  | ChunkAggregate p => pl_vector p = v
  | _ => False
  end.

(** Every chunk document the store returns has an [_id]. *)
Definition store_has_ids (svc : Services) : Prop :=
  ∀ n v k docs, chunks_knn svc n v k = Ok docs →
                Forall (λ c, is_Some (chunk_id c)) docs.

(** The store answers a query for five neighbours with at most five. *)
Definition store_returns_at_most_five (svc : Services) : Prop :=
  ∀ n v docs, chunks_knn svc n v 5 = Ok docs → length docs ≤ 5.

(** The prompt [generate_response] sends for a search result with
    evidence. *)
Definition synthesis_prompt (query : string) (found : SearchResult) : string :=
  if is_nil (sr_summaries found)
  then ResponseGenerator.chunks_prompt query
         (ResponseGenerator._format_chunks_for_prompt (sr_chunks found))
  else ResponseGenerator.comprehensive_prompt query
         (ResponseGenerator._create_comprehensive_context
            (sr_summaries found) (sr_chunks found)).

(** The ["sources_used"] entry a branch stores. *)
Definition branch_sources (found : SearchResult) : pyval :=
  if is_nil (sr_summaries found)
  then Py.PDict [("chunks", Py.PInt (Z.of_nat (length (sr_chunks found))))]
  else Py.PDict
         [("summaries", Py.PInt (Z.of_nat (length (sr_summaries found))));
          ("chunks", Py.PInt (Z.of_nat (length (sr_chunks found))))].

(** The confidence a branch computes. *)
Definition branch_confidence (found : SearchResult) : Q :=
  let citations :=
    ResponseGenerator._create_citations (sr_summaries found) (sr_chunks found) in
  if is_nil (sr_summaries found)
  then ResponseGenerator._calculate_chunk_confidence citations
  else ResponseGenerator._calculate_confidence citations (sr_summaries found).

(** Chunks or summaries are present. *)
Definition has_evidence (found : SearchResult) : Prop :=
  sr_chunks found ≠ [] ∨ sr_summaries found ≠ [].

(** The dictionary [process_query] returns around a synthesized response. *)
Definition stamped (response : Response) (processed_at : string)
    (found : SearchResult) : Response :=
  {| r_answer := r_answer response;
     r_citations := r_citations response;
     r_metadata :=
       <[ "sources_used" :=
            Py.PDict
              [("summaries", Py.PInt (Z.of_nat (length (sr_summaries found))));
               ("chunks", Py.PInt (Z.of_nat (length (sr_chunks found))))] ]>
         (<[ "processed_at" := Py.PStr processed_at ]> (r_metadata response));
     r_confidence := r_confidence response |}.

(** [json.loads] accepted the raw chunk as it stands, as an object with
    both required keys, and the chunk is that object, a text under
    ["content"] having its backslash-n sequences turned into line feeds. *)
Definition accepted_as_object (json_loads : string → attempt pyval)
    (raw_chunk : string) (chunk : pyval) : Prop :=
  ∃ kvs,
    json_loads raw_chunk = inr (Py.PDict kvs)
    ∧ 32 ≤ String.length raw_chunk
    ∧ is_Some (SemanticChunker.dict_get "chunk_metadata" kvs)
    ∧ ∃ content_value,
        SemanticChunker.dict_get "content" kvs = Some content_value
        ∧ chunk = match content_value with
                  | Py.PStr content =>
                      Py.PDict
                        (SemanticChunker.dict_set "content"
                           (Py.PStr (PyText.replace "\n" PyText.LF1 content))
                           kvs)
                  | _ => Py.PDict kvs
                  end.

(** ** More example data *)

Module Samples.

(** A store whose summary search fails. *)
Definition svc_no_summaries : Services :=
  {| embed_query := λ _ _, Ok [1%Q];
     summary_knn := λ _ _ _, Raise "summary index unavailable";
     chunks_knn := λ _ _ _, Ok [Examples.chunk_b; Examples.chunk_c];
     llm_ainvoke := λ _ _, Ok "Yes.";
     utcnow := λ n, "2024-01-01T00:00:0" +:+ pretty n |}.

(** A store that returns the [k] nearest of six chunks. *)
Definition svc_top_k : Services :=
  {| embed_query := λ _ _, Ok [1%Q];
     summary_knn := λ _ _ _, Ok [Examples.summary_1];
     chunks_knn := λ _ _ k,
       Ok (take k [Examples.chunk_a; Examples.chunk_b; Examples.chunk_c;
                   Examples.chunk_d; Examples.chunk_e; Examples.chunk_f]);
     llm_ainvoke := λ _ _, Ok "Yes.";
     utcnow := λ n, "2024-01-01T00:00:0" +:+ pretty n |}.

(** A completion service that is down. *)
Definition svc_llm_down : Services :=
  {| embed_query := λ _ _, Ok [1%Q];
     summary_knn := λ _ _ _, Ok [Examples.summary_1];
     chunks_knn := λ _ _ _, Ok [Examples.chunk_a];
     llm_ainvoke := λ _ _, Raise "rate limit exceeded";
     utcnow := λ n, "2024-01-01T00:00:0" +:+ pretty n |}.

(** A store whose chunk search fails once, on the third call to a service
    (the anchored search of a query), and answers otherwise. *)
Definition svc_anchored_down : Services :=
  {| embed_query := λ _ _, Ok [1%Q];
     summary_knn := λ _ _ _, Ok [Examples.summary_1];
     chunks_knn := λ n _ _,
       if (n =? 2)%nat then Raise "cursor timed out"
       else Ok [Examples.chunk_b; Examples.chunk_c];
     llm_ainvoke := λ _ _, Ok "Yes.";
     utcnow := λ n, "2024-01-01T00:00:0" +:+ pretty n |}.

(** One summary and two chunks as evidence. *)
Definition evidence : SearchResult :=
  search_result_of [Examples.summary_1] [Examples.chunk_a; Examples.chunk_b].

Definition caller_metadata : pydict := {[ "test_run" := Py.PBool true ]}.

(** What [search] finds in [Examples.svc_overlap]. *)
Definition overlap_found : SearchResult :=
  search_result_of [Examples.summary_1]
    [Examples.chunk_a; Examples.chunk_a; Examples.chunk_b; Examples.chunk_c;
     Examples.chunk_d; Examples.chunk_e].

Definition overlap_trace : trace :=
  [EmbedQuery Examples.the_query;
   SummaryAggregate [1%Q] 5;
   ChunkAggregate (QueryProcessor.anchored_pipeline [1%Q] [Examples.summary_1]);
   ChunkAggregate
     (QueryProcessor.direct_pipeline [1%Q] ["65f1c0de0000000000000a01"])].

(** A conversation with one earlier exchange. *)
Definition conversations : gmap string (list (ChatApi.HistoryEntry string)) :=
  {[ "c-1" := [ChatApi.mkHistoryEntry "hello" "Hi!" "2024-01-01T00:00:00"] ]}.

(** A double quote, and a chunk as the completion service should send it. *)
Definition DQ : string := String (Ascii.ascii_of_nat 34) EmptyString.

Definition quoted (s : string) : string := DQ +:+ s +:+ DQ.

Definition good_chunk : string :=
  "{" +:+ quoted "content" +:+ ":" +:+ quoted "Step 1\nStep 2" +:+ ","
  +:+ quoted "chunk_metadata" +:+ ":{}}".

Definition good_response : string :=
  "```json
" +:+ good_chunk +:+ "
```".

(** A parser that knows one chunk. *)
Definition toy_json_loads (s : string) : attempt pyval :=
  if String.eqb s good_chunk
  then inr (Py.PDict [("content", Py.PStr "Step 1\nStep 2");
                      ("chunk_metadata", Py.PDict [])])
  else inl JSONDecodeError.

Definition no_second_attempt (s : string) : attempt pyval :=
  inl JSONDecodeError.

End Samples.

(** * Properties *)

Import QueryProcessor ResponseGenerator RAGSystem.

(** ** The string built-ins *)

Module PyFacts.

Lemma isspace_lower_char c : Py.isspace (Py.lower_char c) = Py.isspace c.
Proof. by destruct c as [[] [] [] [] [] [] [] []]. Qed.

Lemma lower_char_idem c : Py.lower_char (Py.lower_char c) = Py.lower_char c.
Proof. by destruct c as [[] [] [] [] [] [] [] []]. Qed.

Lemma lower_idem s : Py.lower (Py.lower s) = Py.lower s.
Proof.
  induction s as [|c s IH]; simpl; [done|].
  by rewrite lower_char_idem, IH.
Qed.

Lemma lower_app s1 s2 : Py.lower (s1 +:+ s2) = Py.lower s1 +:+ Py.lower s2.
Proof. induction s1 as [|c s1 IH]; simpl; [done|]. by rewrite IH. Qed.

Lemma join_cons2 sep w w' ws :
  Py.join sep (w :: w' :: ws) = w +:+ sep +:+ Py.join sep (w' :: ws).
Proof. done. Qed.

Lemma lower_join ws :
  Py.lower (Py.join " " ws) = Py.join " " (Py.lower <$> ws).
Proof.
  induction ws as [|w [|w' ws] IH]; [done..|].
  rewrite join_cons2, !lower_app, IH. done.
Qed.

(** One step of [split], with the recursive calls kept folded. *)
Lemma split_cons c s :
  Py.split (String c s) =
  if Py.isspace c then Py.split s
  else match s with
       | EmptyString => [String c EmptyString]
       | String d _ =>
           if Py.isspace d then String c EmptyString :: Py.split s
           else match Py.split s with
                | w :: ws => String c w :: ws
                | [] => [String c EmptyString]
                end
       end.
Proof. done. Qed.

(** Lower-casing moves no word boundary. *)
Lemma split_lower s : Py.split (Py.lower s) = Py.lower <$> Py.split s.
Proof.
  induction s as [|c s IH]; [done|].
  cbn [Py.lower]. rewrite !split_cons, isspace_lower_char.
  destruct (Py.isspace c); [done|].
  destruct s as [|d s]; [done|].
  cbn [Py.lower] in *. rewrite isspace_lower_char.
  destruct (Py.isspace d).
  - cbn [fmap list_fmap]. by rewrite <- IH.
  - rewrite IH. by destruct (Py.split (String d s)).
Qed.

Lemma no_space_cons c s :
  no_space (String c s) = true → Py.isspace c = false ∧ no_space s = true.
Proof.
  simpl. intros [Hc Hs]%andb_prop. by apply negb_true_iff in Hc.
Qed.

Lemma split_words s : Forall is_word (Py.split s).
Proof.
  induction s as [|c s IH]; [constructor|].
  rewrite split_cons. destruct (Py.isspace c) eqn:Hc; [done|].
  assert (is_word (String c EmptyString)) as Hone.
  { split; [done|]. simpl. by rewrite Hc. }
  assert (Forall is_word [String c EmptyString]) as Hsingle
    by (constructor; [done|constructor]).
  destruct s as [|d s]; [done|].
  destruct (Py.isspace d) eqn:Hd; [by constructor|].
  destruct (Py.split (String d s)) as [|w ws]; [done|].
  inversion IH as [|? ? [_ Hw] Hws]; subst.
  constructor; [|done]. split; [done|]. simpl. by rewrite Hc, Hw.
Qed.

Lemma split_word w : is_word w → Py.split w = [w].
Proof.
  intros [Hne Hw]. induction w as [|c w IH]; [done|].
  apply no_space_cons in Hw as [Hc Hw].
  rewrite split_cons, Hc.
  destruct w as [|d w]; [done|].
  rewrite (IH ltac:(done) Hw).
  apply no_space_cons in Hw as [Hd _]. by rewrite Hd.
Qed.

Lemma split_word_sep w rest :
  is_word w → Py.split (w +:+ " " +:+ rest) = w :: Py.split rest.
Proof.
  intros [Hne Hw]. induction w as [|c w IH]; [done|].
  apply no_space_cons in Hw as [Hc Hw].
  change (String c w +:+ " " +:+ rest) with (String c (w +:+ " " +:+ rest)).
  rewrite split_cons, Hc.
  destruct w as [|d w]; [done|].
  specialize (IH ltac:(done) Hw). apply no_space_cons in Hw as [Hd _].
  change (String d w +:+ " " +:+ rest)
    with (String d (w +:+ " " +:+ rest)) in *.
  cbv iota. by rewrite Hd, IH.
Qed.

Lemma split_join ws : Forall is_word ws → Py.split (Py.join " " ws) = ws.
Proof.
  induction 1 as [|w ws Hw Hws IH]; [done|].
  destruct ws as [|w' ws]; [by apply split_word|].
  by rewrite join_cons2, split_word_sep, IH.
Qed.

Lemma lower_words ws : Forall is_word ws → Forall is_word (Py.lower <$> ws).
Proof.
  intros H. apply Forall_fmap. eapply Forall_impl; [exact H|].
  intros w [Hne Hw]. split; [by destruct w|].
  clear Hne. induction w as [|c w IH]; [done|].
  apply no_space_cons in Hw as [Hc Hw].
  simpl. by rewrite isspace_lower_char, Hc, IH.
Qed.

Lemma join_cons_char a w ws :
  Py.join " " (String a w :: ws) = String a (Py.join " " (w :: ws)).
Proof. by destruct ws. Qed.

Lemma split_nonspace c s : Py.isspace c = false → Py.split (String c s) ≠ [].
Proof.
  intros Hc. rewrite split_cons, Hc.
  destruct s as [|d s]; [done|].
  destruct (Py.isspace d); [done|]. by destruct (Py.split (String d s)).
Qed.

(** The pass of [spec_collapse] after a gap and inside a word, against the
    words of [split]. *)
Lemma spec_collapse_split s :
  spec_collapse true true s
  = match Py.split s with
    | [] => EmptyString
    | ws => String " " (Py.join " " (Py.lower <$> ws))
    end
  ∧ ∀ c, Py.isspace c = false →
      Py.join " " (Py.lower <$> Py.split (String c s))
      = String (Py.lower_char c) (spec_collapse true false s).
Proof.
  induction s as [|d s [IHgap IHword]].
  { split; [done|]. intros c Hc. by rewrite split_cons, Hc. }
  destruct (Py.isspace d) eqn:Hd.
  - split.
    + cbn [spec_collapse]. rewrite Hd, split_cons, Hd. exact IHgap.
    + intros c Hc. rewrite split_cons, Hc, Hd.
      cbn [spec_collapse]. rewrite Hd, IHgap.
      rewrite (split_cons d s), Hd.
      by destruct (Py.split s).
  - pose proof (split_nonspace d s Hd) as Hne.
    specialize (IHword d Hd). split.
    + cbn [spec_collapse]. rewrite Hd, <- IHword.
      by destruct (Py.split (String d s)).
    + intros c Hc. rewrite split_cons, Hc, Hd.
      cbn [spec_collapse]. rewrite Hd, <- IHword.
      destruct (Py.split (String d s)) as [|w ws]; [done|].
      cbn [fmap list_fmap Py.lower]. by rewrite join_cons_char.
Qed.

Lemma spec_collapse_start s :
  spec_collapse false false s = Py.join " " (Py.lower <$> Py.split s).
Proof.
  induction s as [|c s IH]; [done|].
  cbn [spec_collapse]. destruct (Py.isspace c) eqn:Hc.
  - by rewrite split_cons, Hc.
  - symmetry. by apply spec_collapse_split.
Qed.

End PyFacts.

Lemma normalize_content_idem s :
  _normalize_content (_normalize_content s) = _normalize_content s.
Proof.
  unfold _normalize_content.
  rewrite PyFacts.lower_join, PyFacts.split_join.
  - rewrite PyFacts.split_lower, <- list_fmap_compose.
    f_equal. apply list_fmap_ext. intros. apply PyFacts.lower_idem.
  - apply PyFacts.lower_words, PyFacts.split_words.
Qed.

(** ** The stable descending sort *)

Section SortFacts.
Context {A : Type} (key : A → Q).

Lemma insert_desc_perm x l : Py.insert_desc key x l ≡ₚ x :: l.
Proof.
  induction l as [|y l IH]; simpl; [done|].
  destruct (Qle_bool (key y) (key x)); [done|].
  rewrite IH. apply Permutation_swap.
Qed.

Lemma sort_reverse_perm l : Py.sort_reverse key l ≡ₚ l.
Proof.
  induction l as [|x l IH]; simpl; [done|].
  by rewrite insert_desc_perm, IH.
Qed.

Lemma insert_desc_sorted x l :
  StronglySorted (desc key) l →
  StronglySorted (desc key) (Py.insert_desc key x l).
Proof.
  induction 1 as [|y l Hl IH Hy]; simpl; [by repeat constructor|].
  destruct (Qle_bool (key y) (key x)) eqn:Hle.
  - apply Qle_bool_iff in Hle.
    constructor; [by constructor|].
    constructor; [done|].
    eapply Forall_impl; [exact Hy|]. intros z Hz. unfold desc in *.
    eapply Qle_trans; eassumption.
  - constructor; [done|].
    rewrite insert_desc_perm. constructor; [|done].
    unfold desc. apply Qlt_le_weak, Qnot_le_lt.
    intros H%Qle_bool_iff. congruence.
Qed.

Lemma sort_reverse_sorted l : StronglySorted (desc key) (Py.sort_reverse key l).
Proof.
  induction l as [|x l IH]; simpl; [constructor|].
  by apply insert_desc_sorted.
Qed.

(** An inserted element passes only elements of strictly greater key, so
    the elements of one key keep their order. *)
Lemma insert_desc_stable v x l :
  filter (λ a, key a == v)%Q (Py.insert_desc key x l)
  = filter (λ a, key a == v)%Q (x :: l).
Proof.
  induction l as [|y l IH]; simpl; [done|].
  destruct (Qle_bool (key y) (key x)) eqn:Hle; [done|].
  rewrite filter_cons, IH, !filter_cons.
  destruct (decide (key y == v)%Q) as [Hy|]; [|done].
  destruct (decide (key x == v)%Q) as [Hx|]; [|done].
  exfalso. assert (Qle_bool (key y) (key x) = true); [|congruence].
  apply Qle_bool_iff. rewrite Hx, Hy. apply Qle_refl.
Qed.

Lemma sort_reverse_stable v l :
  filter (λ a, key a == v)%Q (Py.sort_reverse key l)
  = filter (λ a, key a == v)%Q l.
Proof.
  induction l as [|x l IH]; simpl; [done|].
  by rewrite insert_desc_stable, !filter_cons, IH.
Qed.

Lemma sort_reverse_sorted_id l :
  StronglySorted (desc key) l → Py.sort_reverse key l = l.
Proof.
  induction 1 as [|x l Hl IH Hx]; simpl; [done|].
  rewrite IH. destruct l as [|y l]; simpl; [done|].
  inversion Hx as [|? ? Hy _]; subst.
  apply Qle_bool_iff in Hy. by rewrite Hy.
Qed.

End SortFacts.

(** ** The deduplication loop *)

Lemma filter_none {A} (P : A → Prop) `{∀ x, Decision (P x)} (l : list A) :
  (∀ x, x ∈ l → ¬ P x) → filter P l = [].
Proof.
  induction l as [|x l IH]; intros Hl; [done|].
  rewrite filter_cons_False; [|apply Hl; left].
  apply IH. intros y Hy. apply Hl. by right.
Qed.

Section DedupFacts.

Lemma processed_key_processed c :
  processed_key (processed_chunk c) = chunk_key c.
Proof. done. Qed.

Lemma processed_as_chunk p : processed_chunk (as_chunk p) = p.
Proof. by destruct p. Qed.

Lemma loop_first_seen cs seen acc :
  (foldl process_step (seen, acc) cs).2 = acc ++ first_seen seen cs.
Proof.
  revert seen acc. induction cs as [|c cs IH]; intros seen acc; simpl.
  { by rewrite app_nil_r. }
  unfold process_step at 2. simpl. fold (chunk_key c).
  destruct (decide (chunk_key c ∈ seen)); [apply IH|].
  by rewrite IH, <- app_assoc.
Qed.

Lemma dedup_loop_first_seen cs : dedup_loop cs = first_seen ∅ cs.
Proof. unfold dedup_loop. by rewrite loop_first_seen. Qed.

Lemma first_seen_fresh seen cs p :
  p ∈ first_seen seen cs → processed_key p ∉ seen.
Proof.
  revert seen. induction cs as [|c cs IH]; intros seen; simpl.
  { by intros ?%elem_of_nil. }
  destruct (decide (chunk_key c ∈ seen)); [apply IH|].
  intros [->|Hp%IH]%elem_of_cons; [done|]. set_solver.
Qed.

Lemma first_seen_sublist seen cs :
  first_seen seen cs `sublist_of` processed_chunk <$> cs.
Proof.
  revert seen. induction cs as [|c cs IH]; intros seen; simpl; [done|].
  destruct (decide (chunk_key c ∈ seen)).
  - by apply sublist_cons.
  - by apply sublist_skip.
Qed.

Lemma first_seen_NoDup seen cs : NoDup (processed_key <$> first_seen seen cs).
Proof.
  revert seen. induction cs as [|c cs IH]; intros seen; simpl; [constructor|].
  destruct (decide (chunk_key c ∈ seen)); [apply IH|].
  rewrite fmap_cons. constructor; [|apply IH].
  intros (p & Hk & Hp%first_seen_fresh)%list_elem_of_fmap.
  rewrite processed_key_processed in Hk. set_solver.
Qed.

(** The first chunk of a key is the only one of that key that survives. *)
Lemma first_seen_filter seen pre c0 post :
  chunk_key c0 ∉ seen →
  (∀ x, x ∈ pre → chunk_key x ≠ chunk_key c0) →
  filter (λ p, processed_key p = chunk_key c0)
         (first_seen seen (pre ++ c0 :: post))
  = [processed_chunk c0].
Proof.
  revert seen. induction pre as [|x pre IH]; intros seen Hseen Hpre; simpl.
  - rewrite decide_False by done.
    rewrite filter_cons_True by done. f_equal.
    apply filter_none. intros p Hp%first_seen_fresh. set_solver.
  - assert (chunk_key x ≠ chunk_key c0) as Hx by (apply Hpre; left).
    assert (∀ y, y ∈ pre → chunk_key y ≠ chunk_key c0) as Hpre'
      by (intros; apply Hpre; by right).
    destruct (decide (chunk_key x ∈ seen)); [by apply IH|].
    rewrite filter_cons_False; [|done].
    apply IH; [|done].
    apply not_elem_of_union. split; [|done].
    by apply not_elem_of_singleton.
Qed.

Lemma first_occurrence cs c :
  c ∈ cs →
  ∃ pre c0 post, cs = pre ++ c0 :: post ∧ chunk_key c0 = chunk_key c
    ∧ ∀ x, x ∈ pre → chunk_key x ≠ chunk_key c.
Proof.
  induction cs as [|y cs IH]; [by intros ?%elem_of_nil|].
  intros Hc. destruct (decide (chunk_key y = chunk_key c)) as [Hy|Hy].
  { exists [], y, cs. split_and!; [done..|]. by intros ? ?%elem_of_nil. }
  apply elem_of_cons in Hc as [->|Hc]; [done|].
  destruct (IH Hc) as (pre & c0 & post & -> & Hk & Hpre).
  exists (y :: pre), c0, post. split_and!; [done..|].
  intros x [->|?]%elem_of_cons; auto.
Qed.

(** Processed chunks of distinct keys all survive a second pass. *)
Lemma first_seen_as_chunk seen ps :
  NoDup (processed_key <$> ps) →
  (∀ p, p ∈ ps → processed_key p ∉ seen) →
  first_seen seen (as_chunk <$> ps) = ps.
Proof.
  revert seen. induction ps as [|p ps IH]; intros seen Hnd Hseen; [done|].
  rewrite fmap_cons in Hnd. apply NoDup_cons in Hnd as [Hp Hnd].
  simpl. change (chunk_key (as_chunk p)) with (processed_key p).
  rewrite decide_False by (apply Hseen; left).
  rewrite processed_as_chunk. f_equal. apply IH; [done|].
  intros q Hq. apply not_elem_of_union. split; [|apply Hseen; by right].
  apply not_elem_of_singleton. intros Heq. apply Hp.
  rewrite <- Heq. by apply list_elem_of_fmap_2.
Qed.

Lemma process_chunks_perm cs : _process_chunks cs ≡ₚ first_seen ∅ cs.
Proof.
  unfold _process_chunks. by rewrite sort_reverse_perm, dedup_loop_first_seen.
Qed.

Lemma process_chunks_NoDup cs : NoDup (processed_key <$> _process_chunks cs).
Proof. rewrite process_chunks_perm. apply first_seen_NoDup. Qed.

End DedupFacts.

(** ** The Evidence Assembler *)

(** The key [_process_chunks] compares is the content in lower case with
    its whitespace collapsed, as the specification words it. *)
Lemma normalize_content_spec s : _normalize_content s = spec_normalized s.
Proof.
  unfold _normalize_content, spec_normalized.
  by rewrite PyFacts.spec_collapse_start, PyFacts.split_lower.
Qed.

(** The first input chunk of a key is the only output chunk of that key. *)
Lemma process_chunks_first_of_key cs c :
  c ∈ cs →
  ∃ pre c0 post,
    cs = pre ++ c0 :: post
    ∧ chunk_key c0 = chunk_key c
    ∧ (∀ x, x ∈ pre → chunk_key x ≠ chunk_key c)
    ∧ filter (λ p, processed_key p = chunk_key c) (_process_chunks cs)
      = [processed_chunk c0].
Proof.
  intros (pre & c0 & post & -> & Hk & Hpre)%first_occurrence.
  exists pre, c0, post. split_and!; [done..|].
  apply Permutation_singleton_r.
  rewrite process_chunks_perm, <- Hk.
  rewrite first_seen_filter; [done|set_solver|].
  intros x Hx. rewrite Hk. by apply Hpre.
Qed.

(** C7. Chunks whose contents differ in case and whitespace only leave
    exactly one chunk in the output of [_process_chunks]: for every input
    chunk [c], the first input chunk [c0] whose content is the text of [c]
    up to case and whitespace is the only output chunk of that text, and it
    carries the content of [c0] and the score of [c0], 0.7 when [c0] has
    none. *)
Theorem process_chunks_keeps_first cs c :
  c ∈ cs →
  ∃ pre c0 post,
    cs = pre ++ c0 :: post
    ∧ same_text (chunk_content c0) (chunk_content c)
    ∧ (∀ x, x ∈ pre → ¬ same_text (chunk_content x) (chunk_content c))
    ∧ filter (λ p, same_text (pc_content p) (chunk_content c))
        (_process_chunks cs)
      = [processed_chunk c0]
    ∧ pc_content (processed_chunk c0) = chunk_content c0
    ∧ pc_score (processed_chunk c0) = default 0.7%Q (chunk_score c0).
Proof.
  intros (pre & c0 & post & Hcs & Hk & Hpre & Hfilter)%process_chunks_first_of_key.
  unfold chunk_key, processed_key in *. unfold same_text.
  exists pre, c0, post. split_and!; [done| | | |done|done].
  - by rewrite <- !normalize_content_spec.
  - intros x Hx. rewrite <- !normalize_content_spec. by apply Hpre.
  - rewrite <- Hfilter. apply list_filter_iff.
    intros p. by rewrite <- !normalize_content_spec.
Qed.

(** C8. The output of [_process_chunks] is in descending order of score,
    and for every score the chunks of that score stand in the order in which
    the loop kept them, which is their order in the input. *)
Theorem process_chunks_sorted_stable cs :
  StronglySorted (desc pc_score) (_process_chunks cs)
  ∧ dedup_loop cs `sublist_of` processed_chunk <$> cs
  ∧ ∀ v, filter (λ p, pc_score p == v)%Q (_process_chunks cs)
         = filter (λ p, pc_score p == v)%Q (dedup_loop cs).
Proof.
  split_and!.
  - apply sort_reverse_sorted.
  - rewrite dedup_loop_first_seen. apply first_seen_sublist.
  - intros v. apply sort_reverse_stable.
Qed.

(** C10. [_process_chunks] is idempotent: its output, read again as chunk
    dictionaries, is returned unchanged; every output chunk has a score, the
    normalized contents of the output are pairwise distinct and the output is
    sorted. [_normalize_content] is idempotent as well. *)
Theorem evidence_assembly_idempotent cs s :
  _process_chunks (as_chunk <$> _process_chunks cs) = _process_chunks cs
  ∧ Forall (λ p, chunk_score (as_chunk p) = Some (pc_score p))
           (_process_chunks cs)
  ∧ NoDup (processed_key <$> _process_chunks cs)
  ∧ StronglySorted (desc pc_score) (_process_chunks cs)
  ∧ _normalize_content (_normalize_content s) = _normalize_content s.
Proof.
  split_and!.
  - unfold _process_chunks at 1.
    rewrite dedup_loop_first_seen, first_seen_as_chunk.
    + apply sort_reverse_sorted_id, sort_reverse_sorted.
    + apply process_chunks_NoDup.
    + set_solver.
  - by apply Forall_forall.
  - apply process_chunks_NoDup.
  - apply sort_reverse_sorted.
  - apply normalize_content_idem.
Qed.

(** C7 on two spellings of one text with an unscored chunk between them:
    the first spelling is kept, with its own content and score. *)
Lemma process_chunks_keeps_first_witness :
  let cs :=
    [Examples.chunk_loud; Examples.chunk_unscored; Examples.chunk_quiet] in
  let c := Examples.chunk_quiet in
  c ∈ cs
  ∧ same_text "Repairs  MUST be done" " repairs must be done "
  ∧ filter (λ p, same_text (pc_content p) (chunk_content c))
      (_process_chunks cs)
    = [processed_chunk Examples.chunk_loud]
  ∧ pc_content (processed_chunk Examples.chunk_loud) = "Repairs  MUST be done"
  ∧ pc_score (processed_chunk Examples.chunk_loud) = 0.5%Q.
Proof.
  intros cs c.
  assert (c ∈ cs) as Hc
    by (do 2 apply list_elem_of_further; apply list_elem_of_here).
  assert (same_text "Repairs  MUST be done" " repairs must be done ") as Hsame
    by reflexivity.
  split; [exact Hc|]. split; [exact Hsame|].
  destruct (process_chunks_keeps_first cs c Hc)
    as (pre & c0 & post & Hcs & _ & Hpre & Hfilter & _ & _).
  assert (c0 = Examples.chunk_loud) as ->.
  { destruct pre as [|x pre]; [by injection Hcs as <-|].
    injection Hcs as <- _. destruct (Hpre Examples.chunk_loud); [left|done]. }
  split; [exact Hfilter|]. split; reflexivity.
Defined.

Example process_chunks_example :
  pc_content <$> _process_chunks
    [Examples.chunk_loud; Examples.chunk_unscored; Examples.chunk_quiet;
     Examples.chunk_c]
  = ["escrow holdback"; "charlie"; "Repairs  MUST be done"].
Proof. by vm_compute. Qed.

Example normalize_content_example :
  _normalize_content "  Repairs	MUST be
 done " = "repairs must be done".
Proof. by vm_compute. Qed.

(** ** Confidence *)

Section ConfidenceFacts.
Local Open Scope Q_scope.

Lemma foldl_Qplus_acc a xs : foldl Qplus a xs == a + foldr Qplus 0 xs.
Proof.
  revert a. induction xs as [|x xs IH]; intros a; simpl.
  - ring.
  - rewrite IH. ring.
Qed.

Lemma sum_foldr xs : Py.sum xs == foldr Qplus 0 xs.
Proof. unfold Py.sum. rewrite foldl_Qplus_acc. ring. Qed.

(** [sum(xs) / len(xs)] is the arithmetic mean. *)
Lemma mean_spec xs : Py.sum xs / Py.len xs == arithmetic_mean xs.
Proof. unfold arithmetic_mean, Py.len. by rewrite sum_foldr. Qed.

Lemma foldr_nonneg xs : Forall (λ x, 0 <= x) xs → 0 <= foldr Qplus 0 xs.
Proof.
  induction 1 as [|x xs Hx _ IH]; simpl; [apply Qle_refl|].
  replace 0 with (0 + 0) by done. by apply Qplus_le_compat.
Qed.


Lemma len_pos {A} (xs : list A) :
  xs ≠ [] → 0 < inject_Z (Z.of_nat (length xs)).
Proof.
  intros Hne. destruct xs; [done|]. simpl length.
  unfold Qlt. simpl. lia.
Qed.

Lemma mean_nonneg xs : Forall (λ x, 0 <= x) xs → 0 <= arithmetic_mean xs.
Proof.
  intros H. unfold arithmetic_mean. destruct xs as [|x xs]; [done|].
  apply Qle_shift_div_l; [by apply len_pos|].
  rewrite Qmult_0_l. by apply foldr_nonneg.
Qed.


(** [min(0.95, x)] is [x] capped at 0.95. *)
Lemma min_cap x : Py.min 0.95 x == capped x.
Proof.
  unfold Py.min, capped.
  destruct (Qle_bool 0.95 x) eqn:H1, (Qle_bool x 0.95) eqn:H2; try done.
  - apply Qle_bool_iff in H1, H2. by apply Qle_antisym.
  - exfalso. destruct (Qlt_le_dec x 0.95) as [Hlt|Hle].
    + apply Qlt_le_weak, Qle_bool_iff in Hlt. congruence.
    + apply Qle_bool_iff in Hle. congruence.
Qed.

Lemma capped_proper x y : x == y → capped x == capped y.
Proof.
  intros Hxy. unfold capped.
  rewrite (Qleb_comp x y Hxy 0.95 0.95 (Qeq_refl _)).
  by destruct (Qle_bool y 0.95).
Qed.




Lemma chunk_confidence_spec citations :
  _calculate_chunk_confidence citations
  == spec_chunks_only_confidence (citation_confidence <$> citations).
Proof.
  destruct citations as [|c cs]; [done|].
  unfold _calculate_chunk_confidence, spec_chunks_only_confidence.
  cbn [is_nil fmap list_fmap].
  rewrite min_cap. apply capped_proper, mean_spec.
Qed.

Lemma confidence_spec cit citations summaries :
  _calculate_confidence (cit :: citations) summaries
  == spec_comprehensive_confidence (negb (is_nil summaries))
       (citation_confidence <$> cit :: citations).
Proof.
  unfold _calculate_confidence, spec_comprehensive_confidence.
  cbn [is_nil fmap list_fmap].
  rewrite min_cap. apply capped_proper.
  destruct summaries as [|s ss]; cbn [is_nil negb app].
  - rewrite mean_spec. unfold arithmetic_mean at 1 3. cbn [foldr length].
    by rewrite mean_spec.
  - rewrite mean_spec. unfold arithmetic_mean at 1 3. cbn [foldr length].
    by rewrite mean_spec.
Qed.






(** The citations of summaries and positively scored chunks have positive
    confidences. *)
Lemma citations_positive summaries chunks :
  Forall (λ c, 0 < default 0.7 (chunk_score c)) chunks →
  Forall (λ c, 0 < citation_confidence c) (_create_citations summaries chunks).
Proof.
  intros H. unfold _create_citations, _create_chunk_citations.
  apply Forall_app. split; apply Forall_fmap.
  - by apply Forall_forall.
  - eapply Forall_impl; [exact H|]. done.
Qed.

Lemma arithmetic_mean_singleton x : arithmetic_mean [x] == x.
Proof. unfold arithmetic_mean. simpl. field. Qed.

Lemma capped_ge c x : c <= 0.95 → c <= x → c <= capped x.
Proof. intros. unfold capped. by destruct (Qle_bool x 0.95). Qed.

Lemma spec_comprehensive_lower x xs :
  Forall (λ y, 0 <= y) (x :: xs) →
  0.45 <= spec_comprehensive_confidence true (x :: xs).
Proof.
  intros Hall%mean_nonneg.
  unfold spec_comprehensive_confidence. cbn [is_nil app].
  remember (arithmetic_mean (x :: xs)) as m eqn:Hm. clear Hm.
  apply capped_ge; [done|].
  unfold arithmetic_mean. cbn [foldr length].
  apply Qle_shift_div_l; [done|].
  apply Qle_trans with (0.9 + 0); [done|].
  apply Qplus_le_compat; [apply Qle_refl|]. by rewrite Qplus_0_r.
Qed.






(** A chunk scored 0 beside a summary, or beside a chunk of positive score,
    leaves the confidence positive. *)
Example confidence_positive_beside_a_zero_score :
  0 < _calculate_confidence
        (_create_citations [Examples.summary_1] [Examples.zero_score_chunk])
        [Examples.summary_1]
  ∧ 0 < _calculate_chunk_confidence
          (_create_chunk_citations
             [Examples.zero_score_chunk; Examples.chunk_a]).
Proof. by vm_compute. Qed.

(** A negative score can take the confidence below 0. *)
Example confidence_negative_with_a_negative_score :
  _calculate_chunk_confidence
    (_create_chunk_citations
       [Examples.example_chunk "65f1c0de0000000000001401" "yankee" "s2"
          (-0.2)])
  < 0.
Proof. by vm_compute. Qed.


(** C4. Each branch computes what the specification words: the chunks-only
    branch the capped mean of the citation confidences, 0 without citations;
    the comprehensive branch the capped mean of the components, 0.9 when a
    summary is present and the mean of the citation confidences. *)
Theorem confidence_follows_aggregation_rules :
  (∀ citations,
     _calculate_chunk_confidence citations
     == spec_chunks_only_confidence (citation_confidence <$> citations))
  ∧ (∀ cit citations summaries,
       _calculate_confidence (cit :: citations) summaries
       == spec_comprehensive_confidence (negb (is_nil summaries))
            (citation_confidence <$> cit :: citations))
  ∧ (∀ summary summaries chunks,
       let citations := _create_citations (summary :: summaries) chunks in
       _calculate_confidence citations (summary :: summaries)
       == spec_comprehensive_confidence true
            (citation_confidence <$> citations)).
Proof.
  split_and!.
  - apply chunk_confidence_spec.
  - apply confidence_spec.
  - intros summary summaries chunks. apply confidence_spec.
Qed.

(** The scenario of four chunks without a summary: the mean of the scores. *)
Example chunks_only_example :
  _calculate_chunk_confidence
    (_create_chunk_citations
       [Examples.chunk_a; Examples.chunk_b; Examples.chunk_c; Examples.chunk_d])
  == 0.75.
Proof. by vm_compute. Qed.

End ConfidenceFacts.

(** ** Citations *)

(** C9. The citation list of the comprehensive branch has one citation per
    summary followed by one per chunk. A summary citation has confidence
    0.9, the summary text as content and the document path ["summary"]; a
    chunk citation has the chunk's score (0.7 without one) as confidence,
    the chunk text as content and the chunk's component path as document
    path (the empty string when the metadata has none). *)
Theorem citations_one_per_source summaries chunks :
  let citations := _create_citations summaries chunks in
  length citations = (length summaries + length chunks)%nat
  ∧ Forall2 (λ summary cit,
       citation_confidence cit = 0.9%Q
       ∧ cit_content cit = default "" (summary_text summary)
       ∧ cm_document_path (cit_metadata cit) = Py.PStr "summary")
     summaries (take (length summaries) citations)
  ∧ Forall2 (λ chunk cit,
       citation_confidence cit = default 0.7%Q (chunk_score chunk)
       ∧ cit_content cit = chunk_content chunk
       ∧ cm_document_path (cit_metadata cit)
         = default (Py.PStr "") (component_path chunk))
     chunks (drop (length summaries) citations).
Proof.
  unfold _create_citations, _create_chunk_citations. split_and!.
  - by rewrite length_app, !length_fmap.
  - rewrite take_app_length' by (by rewrite length_fmap).
    apply Forall2_fmap_r, Forall_Forall2_diag, Forall_forall. done.
  - rewrite drop_app_length' by (by rewrite length_fmap).
    apply Forall2_fmap_r, Forall_Forall2_diag, Forall_forall.
    intros c _. split_and!; [done..|]. unfold component_path.
    by destruct (chunk_metadata c).
Qed.

(** The scenario of five summaries and eight chunks: thirteen citations. *)
Example citations_scenario :
  length (_create_citations (replicate 5 Examples.summary_1)
                            (replicate 8 Examples.chunk_a)) = 13%nat.
Proof. done. Qed.

(** ** Calls to the services *)

Section MonadFacts.
Context (svc : Services).

Lemma run_bind {A B} (m : M A) (k : A → M B) t :
  (m ≫= k) t = match m t with
               | (Ok a, t') => k a t'
               | (Raise e, t') => (Raise e, t')
               end.
Proof. done. Qed.

(** The fallback pipeline has no stage behind [$search]. *)
Lemma run_stages_fallback v docs : run_stages (fallback_pipeline v) docs = docs.
Proof.
  unfold run_stages. simpl. induction docs as [|d docs IH]; [done|].
  rewrite filter_cons_True by done. by rewrite IH.
Qed.

Lemma run_aggregate_chunks p t :
  aggregate_chunks svc p t
  = (match chunks_knn svc (length t) (pl_vector p) (pl_k p) with
     | Ok docs => Ok (run_stages p docs)
     | Raise e => Raise e
     end, t ++ [ChunkAggregate p]).
Proof.
  unfold aggregate_chunks. rewrite run_bind. unfold call.
  by destruct (chunks_knn svc (length t) (pl_vector p) (pl_k p)).
Qed.

(** A failed direct search counts as an empty one. *)
Lemma run_direct_chunk_search v ids t :
  _direct_chunk_search svc v ids t
  = (Ok (found_or_nothing (direct_pipeline v ids)
           (chunks_knn svc (length t) v 10)),
     t ++ [ChunkAggregate (direct_pipeline v ids)]).
Proof.
  unfold _direct_chunk_search, try_except. rewrite run_aggregate_chunks. simpl.
  by destruct (chunks_knn svc (length t) v 10).
Qed.

Lemma run_mapM_ids (cs : list Chunk) ids t :
  collected_ids cs = Some ids → mapM str_of_chunk_id cs t = (Ok ids, t).
Proof.
  unfold collected_ids.
  revert ids. induction cs as [|c cs IH]; intros ids; simpl.
  { by intros [= <-]. }
  destruct (chunk_id c) as [i|] eqn:Hc; [|done]. simpl.
  destruct (mapM _ cs) as [ids'|] eqn:Hcs; [|done]. simpl. intros [= <-].
  rewrite run_bind. unfold str_of_chunk_id at 1. rewrite Hc. simpl.
  rewrite run_bind. by rewrite (IH ids').
Qed.

(** Below three chunks the direct search is issued once, with the ids of
    the collected chunks as strings, and all it returns is appended. *)
Lemma additional_search_below_three v (cs : list Chunk) ids t :
  length cs < 3 →
  collected_ids cs = Some ids →
  with_additional_chunks svc v cs t
  = (Ok (cs ++ found_or_nothing (direct_pipeline v ids)
                 (chunks_knn svc (length t) v 10)),
     t ++ [ChunkAggregate (direct_pipeline v ids)]).
Proof.
  intros Hlen Hids. unfold with_additional_chunks.
  rewrite bool_decide_eq_true_2 by done.
  rewrite run_bind, (run_mapM_ids _ ids) by done.
  by rewrite run_bind, run_direct_chunk_search.
Qed.

(** From three chunks on no further search is issued. *)
Lemma no_additional_search_from_three v (cs : list Chunk) t :
  3 ≤ length cs → with_additional_chunks svc v cs t = (Ok cs, t).
Proof.
  intros Hlen. unfold with_additional_chunks.
  by rewrite bool_decide_eq_false_2 by lia.
Qed.

End MonadFacts.

(** A listed string never excludes a chunk whose [_id] is an ObjectId. *)
Lemma nin_keeps_object_ids ids c hex :
  chunk_id c = Some (ObjectId hex) → chunk_matches (MatchNin ids) c = true.
Proof.
  intros Hc. unfold chunk_matches. rewrite Hc.
  apply negb_true_iff, bool_decide_eq_false_2.
  by intros (s & ? & _)%list_elem_of_fmap.
Qed.

(** ** The Search Orchestrator *)

(** C2, amended. With at least one summary, [_get_chunks_from_summaries]
    runs the anchored search once. When the anchored search returned and
    kept no chunk, the fallback search runs once and what it found (nothing
    when it fails) is returned; when the anchored search kept a chunk, the
    anchored chunks are returned and the fallback is not run; when the
    anchored search itself raised, no chunk is returned and the fallback is
    not run. *)
Theorem fallback_runs_once_after_empty_anchored_search
    svc summaries query_embedding t :
  summaries ≠ [] →
  let anchored := anchored_pipeline query_embedding summaries in
  let fallback := fallback_pipeline query_embedding in
  _get_chunks_from_summaries svc summaries query_embedding t =
  match chunks_knn svc (length t) query_embedding 10 with
  | Ok docs =>
      match run_stages anchored docs with
      | [] =>
          (Ok (found_or_nothing fallback
                 (chunks_knn svc (S (length t)) query_embedding 5)),
           t ++ [ChunkAggregate anchored; ChunkAggregate fallback])
      | step3 => (Ok step3, t ++ [ChunkAggregate anchored])
      end
  | Raise _ => (Ok [], t ++ [ChunkAggregate anchored])
  end.
Proof.
  intros Hne anchored fallback.
  destruct summaries as [|s ss]; [done|].
  unfold _get_chunks_from_summaries, try_except.
  rewrite run_bind, run_aggregate_chunks.
  change (pl_vector (anchored_pipeline query_embedding (s :: ss)))
    with query_embedding.
  change (pl_k (anchored_pipeline query_embedding (s :: ss))) with 10%nat.
  destruct (chunks_knn svc (length t) query_embedding 10) as [docs|e];
    [|done].
  fold anchored.
  destruct (run_stages anchored docs) as [|c cs]; [|done].
  rewrite run_aggregate_chunks.
  change (pl_vector (fallback_pipeline query_embedding)) with query_embedding.
  change (pl_k (fallback_pipeline query_embedding)) with 5%nat.
  rewrite length_app. simpl length. rewrite Nat.add_1_r.
  fold fallback. rewrite <- app_assoc. simpl.
  by destruct (chunks_knn svc (S (length t)) query_embedding 5).
Qed.

(** C2 on a store whose nearest chunks hang under another summary: the
    anchored search returns and keeps nothing, the fallback runs once and
    its two chunks are returned. *)
Lemma fallback_runs_once_after_empty_anchored_search_witness :
  let summaries := [Examples.summary_1] in
  summaries ≠ []
  ∧ chunks_knn Examples.svc_far 0 [1%Q] 10
    = Ok [Examples.chunk_b; Examples.chunk_c]
  ∧ run_stages (anchored_pipeline [1%Q] summaries)
      [Examples.chunk_b; Examples.chunk_c] = []
  ∧ _get_chunks_from_summaries Examples.svc_far summaries [1%Q] []
    = (Ok [Examples.chunk_b; Examples.chunk_c],
       [ChunkAggregate (anchored_pipeline [1%Q] summaries);
        ChunkAggregate (fallback_pipeline [1%Q])]).
Proof.
  intros summaries.
  assert (summaries ≠ []) as Hne by done.
  split; [exact Hne|]. split; [reflexivity|]. split; [reflexivity|].
  exact (fallback_runs_once_after_empty_anchored_search
           Examples.svc_far summaries [1%Q] [] Hne).
Defined.

(** C2 as stated fails: when the anchored search raises, the step yields no
    chunk and the fallback is not run, although it would have found two
    chunks. [search] goes on with the direct search of its own. *)
Lemma anchored_failure_skips_fallback :
  let svc := Samples.svc_anchored_down in
  let summaries := [Examples.summary_1] in
  let t := [EmbedQuery Examples.the_query; SummaryAggregate [1%Q] 5] in
  summary_knn svc 1 [1%Q] 5 = Ok summaries
  ∧ _get_chunks_from_summaries svc summaries [1%Q] t
    = (Ok [], t ++ [ChunkAggregate (anchored_pipeline [1%Q] summaries)])
  ∧ chunks_knn svc 3 [1%Q] 5 = Ok [Examples.chunk_b; Examples.chunk_c]
  ∧ (search svc Examples.the_query []).2
    = [EmbedQuery Examples.the_query;
       SummaryAggregate [1%Q] 5;
       ChunkAggregate (anchored_pipeline [1%Q] summaries);
       ChunkAggregate (direct_pipeline [1%Q] [])].
Proof. by vm_compute. Qed.

(** C1 at a store of ObjectIds. One chunk is collected, so one direct
    search is issued, with the chunk's id as a string in its exclusion
    list; the store does not equate the string with the ObjectId, the
    collected chunk comes back as the first of the five results, and the
    sixth nearest chunk never reaches the evidence. *)
Theorem additional_search_returns_collected_chunk :
  chunk_id Examples.chunk_a = Some (ObjectId "65f1c0de0000000000000a01")
  ∧ with_additional_chunks Examples.svc_overlap [1%Q] [Examples.chunk_a] []
    = (Ok ([Examples.chunk_a]
           ++ [Examples.chunk_a; Examples.chunk_b; Examples.chunk_c;
               Examples.chunk_d; Examples.chunk_e]),
       [ChunkAggregate (direct_pipeline [1%Q] [str_id (ObjectId "65f1c0de0000000000000a01")])])
  ∧ ∃ found trace,
      search Examples.svc_overlap Examples.the_query [] = (Ok found, trace)
      ∧ chunk_content <$> sr_chunks found
        = ["alpha"; "bravo"; "charlie"; "delta"; "echo"]
      ∧ trace = [EmbedQuery Examples.the_query;
                 SummaryAggregate [1%Q] 5;
                 ChunkAggregate (anchored_pipeline [1%Q] [Examples.summary_1]);
                 ChunkAggregate (direct_pipeline [1%Q] ["65f1c0de0000000000000a01"])].
Proof.
  split_and!; [done|by vm_compute|].
  eexists _, _. split_and!; [by vm_compute|by vm_compute|by vm_compute].
Qed.

(** ** The Response Synthesizer and the pipeline boundary *)

Section Boundary.
Context (svc : Services).

Lemma run_create_error_response e t :
  _create_error_response svc e t
  = (Ok {| r_answer := "I apologize, but I encountered an error while processing your question.";
           r_citations := [];
           r_metadata := {[ "error" := Py.PStr e;
                            "error_time" := Py.PStr (utcnow svc (length t)) ]};
           r_confidence := 0%Q |}, t).
Proof. done. Qed.

(** [generate_response] turns an exception of its [try] block into the
    error response. *)
Lemma run_generate_response query found metadata t :
  generate_response svc query found metadata t =
  match generate_response_body svc query found metadata t with
  | (Ok response, t') => (Ok response, t')
  | (Raise e, t') => _create_error_response svc e t'
  end.
Proof. done. Qed.

Lemma generate_response_returns query found metadata t :
  ∃ response t', generate_response svc query found metadata t = (Ok response, t').
Proof.
  rewrite run_generate_response.
  destruct (generate_response_body svc query found metadata t) as [[r|e] t'].
  - by eexists _, _.
  - rewrite run_create_error_response. by eexists _, _.
Qed.

(** C6. Without chunks and without summaries [generate_response] returns
    the "no content found" response, with confidence 0 and no citation,
    and leaves the trace as it was: no completion call is made. *)
Theorem no_evidence_no_completion_call query search_result metadata t :
  sr_chunks search_result = [] →
  sr_summaries search_result = [] →
  generate_response svc query search_result metadata t
  = (Ok _create_no_content_response, t)
  ∧ r_answer _create_no_content_response
    = "I apologize, but I couldn't find relevant information to answer your question accurately."
  ∧ r_confidence _create_no_content_response = 0%Q
  ∧ r_citations _create_no_content_response = [].
Proof.
  intros Hc Hs. split_and!; [|done..].
  rewrite run_generate_response. unfold generate_response_body.
  by rewrite Hc, Hs.
Qed.

(** C5, amended. [process_query] always returns a response. When the
    search raised, it is the response of its own handler: an apology, no
    citation, confidence 0 and a metadata that holds the error text and
    nothing else. When the synthesis raised, it is the synthesizer's error
    response, whose metadata holds the error text and the error time.
    Otherwise answer, citations and confidence are the synthesizer's. *)
Theorem process_query_never_raises query metadata t :
  ∃ response t',
    process_query svc query metadata t = (Ok response, t')
    ∧ match search svc query t with
      | (Raise e, t1) =>
          t' = t1
          ∧ r_answer response
            = "I apologize, but I encountered an error processing your question."
          ∧ r_citations response = []
          ∧ r_confidence response = 0%Q
          ∧ r_metadata response = {[ "error" := Py.PStr e ]}
      | (Ok found, t1) =>
          match generate_response_body svc query found metadata t1 with
          | (Raise e, t2) =>
              t' = t2
              ∧ r_answer response
                = "I apologize, but I encountered an error while processing your question."
              ∧ r_citations response = []
              ∧ r_confidence response = 0%Q
              ∧ r_metadata response !! "error" = Some (Py.PStr e)
              ∧ r_metadata response !! "error_time"
                = Some (Py.PStr (utcnow svc (length t2)))
          | (Ok synthesized, t2) =>
              t' = t2
              ∧ r_answer response = r_answer synthesized
              ∧ r_citations response = r_citations synthesized
              ∧ r_confidence response = r_confidence synthesized
          end
      end.
Proof.
  unfold process_query, try_except. rewrite run_bind.
  destruct (search svc query t) as [[found|e] t1].
  - rewrite run_bind, run_generate_response.
    destruct (generate_response_body svc query found metadata t1)
      as [[synthesized|e] t2].
    + by eexists _, _.
    + rewrite run_create_error_response. eexists _, _. simpl.
      by split_and!.
  - by eexists _, _.
Qed.

End Boundary.

(** C6 on an empty search result. *)
Lemma no_evidence_no_completion_call_witness :
  sr_chunks Examples.no_evidence = []
  ∧ sr_summaries Examples.no_evidence = []
  ∧ generate_response Examples.svc_overlap Examples.the_query
      Examples.no_evidence None []
    = (Ok _create_no_content_response, [])
  ∧ r_answer _create_no_content_response
    = "I apologize, but I couldn't find relevant information to answer your question accurately."
  ∧ r_confidence _create_no_content_response = 0%Q
  ∧ r_citations _create_no_content_response = [].
Proof.
  split; [reflexivity|]. split; [reflexivity|].
  exact (no_evidence_no_completion_call Examples.svc_overlap Examples.the_query
           Examples.no_evidence None [] eq_refl eq_refl).
Defined.

(** C5 as stated fails: when the embedding call raises, the response comes
    from the handler of [process_query]; its metadata holds the error text
    only, without a time, and its apology is not the synthesizer's. *)
Lemma pipeline_error_has_no_timestamp :
  process_query Examples.svc_embed_down Examples.the_query None []
  = (Ok (pipeline_error_response "connection refused"),
     [EmbedQuery Examples.the_query])
  ∧ r_metadata (pipeline_error_response "connection refused")
    = {[ "error" := Py.PStr "connection refused" ]}
  ∧ r_metadata (pipeline_error_response "connection refused") !! "error_time"
    = None
  ∧ r_metadata (pipeline_error_response "connection refused") !! "processed_at"
    = None
  ∧ r_answer (pipeline_error_response "connection refused")
    ≠ "I apologize, but I encountered an error while processing your question.".
Proof. split_and!; [done..|]. by vm_compute. Qed.

(** * More properties *)

Import PyText ContentCleaner DocumentProcessor SemanticChunker ChatApi.

(** ** The stages of the search *)

Lemma Forall_of_sublist {A} (P : A → Prop) (l1 l2 : list A) :
  l1 `sublist_of` l2 → Forall P l2 → Forall P l1.
Proof.
  rewrite !Forall_forall. intros Hsub H x Hx. apply H.
  by eapply elem_of_sublist.
Qed.

Lemma filter_all {A} (P : A → Prop) `{∀ x, Decision (P x)} (l : list A) :
  Forall P l → filter P l = l.
Proof.
  induction 1 as [|x l Hx _ IH]; [done|].
  by rewrite filter_cons_True, IH.
Qed.

Section StageFacts.

(** The stages keep the order of the ranked documents. *)
Lemma run_stages_sublist p docs : run_stages p docs `sublist_of` docs.
Proof.
  unfold run_stages. destruct (pl_limit p) as [n|].
  - etrans; [apply sublist_take|]. apply sublist_filter.
  - apply sublist_filter.
Qed.

Lemma run_stages_matches p docs :
  Forall (λ c, chunk_matches (pl_match p) c = true) (run_stages p docs).
Proof.
  unfold run_stages.
  assert (Forall (λ c, chunk_matches (pl_match p) c = true)
            (filter (λ c, chunk_matches (pl_match p) c) docs)) as H.
  { apply Forall_forall. intros c [Hc _]%list_elem_of_filter.
    by apply Is_true_true. }
  destruct (pl_limit p); [|done]. by apply Forall_take.
Qed.

Lemma run_stages_limit p docs n :
  pl_limit p = Some n → length (run_stages p docs) ≤ n.
Proof. unfold run_stages. intros ->. rewrite length_take. lia. Qed.

Lemma found_or_nothing_limit p answer n :
  pl_limit p = Some n → length (found_or_nothing p answer) ≤ n.
Proof.
  intros Hp. destruct answer as [docs|e]; simpl; [|lia].
  by apply run_stages_limit.
Qed.

Lemma anchored_matches summaries v c :
  chunk_matches (pl_match (anchored_pipeline v summaries)) c = true →
  anchored_to summaries c.
Proof.
  simpl. intros [H|H]%orb_prop.
  - left. destruct (chunk_summary_id c) as [i|]; [|done].
    exists i. split; [done|]. by apply bool_decide_eq_true in H.
  - right. destruct (chunk_root_id c) as [r|]; [|done].
    apply bool_decide_eq_true in H.
    apply list_elem_of_omap in H as (s & Hs & Hr).
    destruct (summary_root_id s) as [r'|] eqn:Hroot; [|done].
    destruct (decide (r' = "")); [done|]. injection Hr as ->.
    exists r. split_and!; [done..|]. by exists s.
Qed.

Lemma nin_excludes_listed_strings ids c s :
  chunk_matches (MatchNin ids) c = true →
  chunk_id c = Some (StrId s) → s ∉ ids.
Proof.
  unfold chunk_matches. intros H Hc. rewrite Hc in H.
  apply negb_true_iff, bool_decide_eq_false in H.
  intros Hs. apply H. by apply list_elem_of_fmap_2.
Qed.

Lemma collected_ids_present (cs : list Chunk) :
  Forall (λ c, is_Some (chunk_id c)) cs → is_Some (collected_ids cs).
Proof.
  unfold collected_ids. induction 1 as [|c cs [i Hi] _ [ids IH]]; [by eexists|].
  simpl. rewrite Hi. simpl. rewrite IH. by eexists.
Qed.

Lemma process_chunks_length cs : length (_process_chunks cs) ≤ length cs.
Proof.
  rewrite process_chunks_perm.
  rewrite <- (length_fmap processed_chunk cs).
  apply sublist_length, first_seen_sublist.
Qed.

End StageFacts.

Section SearchFacts.
Context (svc : Services).

(** A failed summary search counts as an empty one. *)
Lemma run_search_summaries v t :
  _search_summaries svc v t
  = (Ok (summaries_or_nothing (summary_knn svc (length t) v 5)),
     t ++ [SummaryAggregate v 5]).
Proof.
  unfold _search_summaries, try_except, call.
  by destruct (summary_knn svc (length t) v 5).
Qed.

Lemma run_get_chunks_from_summaries summaries v t :
  _get_chunks_from_summaries svc summaries v t =
  match summaries with
  | [] => (Ok [], t)
  | _ :: _ =>
      let anchored := anchored_pipeline v summaries in
      let fallback := fallback_pipeline v in
      match chunks_knn svc (length t) v 10 with
      | Raise _ => (Ok [], t ++ [ChunkAggregate anchored])
      | Ok docs =>
          match run_stages anchored docs with
          | [] =>
              (Ok (found_or_nothing fallback
                     (chunks_knn svc (S (length t)) v 5)),
               t ++ [ChunkAggregate anchored; ChunkAggregate fallback])
          | step3 => (Ok step3, t ++ [ChunkAggregate anchored])
          end
      end
  end.
Proof.
  destruct summaries as [|s ss]; [done|].
  unfold _get_chunks_from_summaries, try_except.
  rewrite run_bind, run_aggregate_chunks.
  change (pl_vector (anchored_pipeline v (s :: ss))) with v.
  change (pl_k (anchored_pipeline v (s :: ss))) with 10%nat.
  cbv zeta.
  destruct (chunks_knn svc (length t) v 10) as [docs|e]; [|done].
  destruct (run_stages (anchored_pipeline v (s :: ss)) docs) as [|c cs]; [|done].
  rewrite run_aggregate_chunks.
  change (pl_vector (fallback_pipeline v)) with v.
  change (pl_k (fallback_pipeline v)) with 5%nat.
  rewrite length_app. simpl length. rewrite Nat.add_1_r.
  rewrite <- app_assoc. simpl.
  by destruct (chunks_knn svc (S (length t)) v 5).
Qed.

Lemma run_with_additional_chunks v (cs : list Chunk) t :
  with_additional_chunks svc v cs t =
  if bool_decide (length cs < 3) then
    match collected_ids cs with
    | Some ids =>
        (Ok (cs ++ found_or_nothing (direct_pipeline v ids)
                     (chunks_knn svc (length t) v 10)),
         t ++ [ChunkAggregate (direct_pipeline v ids)])
    | None => (Raise "'_id'", t)
    end
  else (Ok cs, t).
Proof.
  unfold with_additional_chunks. case_bool_decide as Hlen; [|done].
  rewrite run_bind.
  destruct (collected_ids cs) as [ids|] eqn:Hids.
  - rewrite (run_mapM_ids _ ids) by done.
    by rewrite run_bind, run_direct_chunk_search.
  - assert (mapM str_of_chunk_id cs t = (Raise "'_id'", t)) as ->; [|done].
    clear Hlen. unfold collected_ids in Hids.
    induction cs as [|c cs IH]; [done|]. simpl in Hids.
    cbn [mapM]. rewrite run_bind. unfold str_of_chunk_id at 1.
    destruct (chunk_id c) as [i|]; [|done]. simpl in *.
    rewrite run_bind.
    destruct (mapM _ cs) as [ids'|]; [done|]. by rewrite IH.
Qed.

(** [search] stage by stage. *)
Lemma run_search query t :
  search svc query t =
  match embed_query svc (length t) query with
  | Raise e => (Raise e, t ++ [EmbedQuery query])
  | Ok v =>
      let summaries :=
        summaries_or_nothing (summary_knn svc (S (length t)) v 5) in
      match _get_chunks_from_summaries svc summaries v
              (t ++ [EmbedQuery query; SummaryAggregate v 5]) with
      | (Ok collected, t1) =>
          match with_additional_chunks svc v collected t1 with
          | (Ok chunks, t2) => (Ok (search_result_of summaries chunks), t2)
          | (Raise e, t2) => (Raise e, t2)
          end
      | (Raise e, t1) => (Raise e, t1)
      end
  end.
Proof.
  unfold search, try_except. rewrite run_bind. unfold call at 1.
  destruct (embed_query svc (length t) query) as [v|e]; [|done].
  rewrite run_bind, run_search_summaries.
  rewrite length_app. simpl length. rewrite Nat.add_1_r.
  rewrite <- app_assoc. simpl app. cbv zeta.
  rewrite run_bind.
  destruct (_get_chunks_from_summaries svc _ v _) as [[collected|e] t1]; [|done].
  rewrite run_bind.
  by destruct (with_additional_chunks svc v collected t1) as [[chunks|e] t2].
Qed.

Lemma found_or_nothing_ids p answer :
  (∀ docs, answer = Ok docs → Forall (λ c, is_Some (chunk_id c)) docs) →
  Forall (λ c, is_Some (chunk_id c)) (found_or_nothing p answer).
Proof.
  intros H. destruct answer as [docs|e]; [|constructor]. simpl.
  eapply Forall_of_sublist; [apply run_stages_sublist|]. by apply H.
Qed.

Lemma get_chunks_ids summaries v t :
  store_has_ids svc →
  ∃ collected t',
    _get_chunks_from_summaries svc summaries v t = (Ok collected, t')
    ∧ Forall (λ c, is_Some (chunk_id c)) collected.
Proof.
  intros Hids. rewrite run_get_chunks_from_summaries.
  destruct summaries as [|s ss]; [by eexists _, _|]. cbv zeta.
  destruct (chunks_knn svc (length t) v 10) as [docs|e] eqn:Hdocs;
    [|by eexists _, _].
  pose proof (run_stages_sublist (anchored_pipeline v (s :: ss)) docs) as Hsub.
  destruct (run_stages (anchored_pipeline v (s :: ss)) docs) as [|c cs].
  - eexists _, _. split; [done|]. apply found_or_nothing_ids.
    intros docs'. apply Hids.
  - eexists _, _. split; [done|].
    eapply Forall_of_sublist; [exact Hsub|]. by eapply Hids.
Qed.

Lemma get_chunks_at_most_ten summaries v t :
  store_returns_at_most_five svc →
  ∃ collected t',
    _get_chunks_from_summaries svc summaries v t = (Ok collected, t')
    ∧ length collected ≤ 10.
Proof.
  intros Hfive. rewrite run_get_chunks_from_summaries.
  destruct summaries as [|s ss]; [eexists _, _; split; [done|simpl; lia]|].
  cbv zeta.
  destruct (chunks_knn svc (length t) v 10) as [docs|e];
    [|eexists _, _; split; [done|simpl; lia]].
  pose proof (run_stages_limit (anchored_pipeline v (s :: ss)) docs 10 eq_refl)
    as Hten.
  destruct (run_stages (anchored_pipeline v (s :: ss)) docs) as [|c cs].
  - eexists _, _. split; [done|].
    destruct (chunks_knn svc (S (length t)) v 5) as [found|e] eqn:Hfound;
      simpl; [|lia].
    rewrite run_stages_fallback. apply Hfive in Hfound. lia.
  - by eexists _, _.
Qed.

Lemma with_additional_chunks_ids v (collected : list Chunk) t :
  store_has_ids svc →
  Forall (λ c, is_Some (chunk_id c)) collected →
  ∃ chunks t',
    with_additional_chunks svc v collected t = (Ok chunks, t')
    ∧ Forall (λ c, is_Some (chunk_id c)) chunks.
Proof.
  intros Hids Hc. rewrite run_with_additional_chunks.
  destruct (collected_ids_present collected Hc) as [ids ->].
  case_bool_decide; [|by eexists _, _].
  eexists _, _. split; [done|]. apply Forall_app. split; [done|].
  apply found_or_nothing_ids. intros docs. apply Hids.
Qed.

(** X1. When every chunk document the store returns has an [_id], the
    chunk retrieval of [search] does not raise, whatever the chunk searches
    answer or fail with: [_get_chunks_from_summaries] returns, the
    additional search that [search] runs on fewer than three chunks returns
    as well, and every chunk retrieved has an [_id]. *)
Theorem chunk_retrieval_returns_when_chunks_have_ids summaries v t :
  store_has_ids svc →
  ∃ collected t1 chunks t2,
    _get_chunks_from_summaries svc summaries v t = (Ok collected, t1)
    ∧ with_additional_chunks svc v collected t1 = (Ok chunks, t2)
    ∧ Forall (λ c, is_Some (chunk_id c)) chunks.
Proof.
  intros Hids.
  destruct (get_chunks_ids summaries v t Hids) as (collected & t1 & Hrun & Hc).
  destruct (with_additional_chunks_ids v collected t1 Hids Hc)
    as (chunks & t2 & Hmore & Hall).
  by exists collected, t1, chunks, t2.
Qed.

(** X2. When the summary search finds nothing or fails, [search] issues no
    anchored and no fallback query: after the embedding and the summary
    search it makes one direct search with an empty exclusion list, and its
    result holds no summary and the processed chunks of that search. *)
Theorem search_without_summaries query v t :
  embed_query svc (length t) query = Ok v →
  summaries_or_nothing (summary_knn svc (S (length t)) v 5) = [] →
  search svc query t
  = (Ok (search_result_of []
           (found_or_nothing (direct_pipeline v [])
              (chunks_knn svc (S (S (length t))) v 10))),
     t ++ [EmbedQuery query; SummaryAggregate v 5;
           ChunkAggregate (direct_pipeline v [])]).
Proof.
  intros Hv Hs. rewrite run_search, Hv. cbv zeta. rewrite Hs.
  rewrite run_get_chunks_from_summaries, run_with_additional_chunks.
  simpl. rewrite length_app. simpl length.
  replace (length t + 2) with (S (S (length t))) by lia.
  by rewrite <- app_assoc.
Qed.

(** X3. [search] embeds the query once, first of all. When the embedding
    fails nothing else is called; otherwise one summary search and between
    one and three chunk searches follow, each with the vector the embedding
    returned, and no completion call. *)
Theorem search_embeds_once query t :
  ∃ evs,
    (search svc query t).2 = t ++ EmbedQuery query :: evs
    ∧ match embed_query svc (length t) query with
      | Raise _ => evs = []
      | Ok v =>
          ∃ searches,
            evs = SummaryAggregate v 5 :: searches
            ∧ 1 ≤ length searches ≤ 3
            ∧ Forall (chunk_search_with v) searches
      end.
Proof.
  rewrite run_search.
  destruct (embed_query svc (length t) query) as [v|e]; [|by eexists].
  cbv zeta. rewrite run_get_chunks_from_summaries.
  set (summaries := summaries_or_nothing (summary_knn svc (S (length t)) v 5)).
  set (t0 := t ++ [EmbedQuery query; SummaryAggregate v 5]).
  assert (∀ (evs : list event) (collected : list Chunk),
    (collected ≠ [] → 1 ≤ length evs) →
    length evs ≤ 2 →
    Forall (chunk_search_with v) evs →
    ∃ all_evs,
      (match with_additional_chunks svc v collected (t0 ++ evs) with
       | (Ok chunks, t2) => (Ok (search_result_of summaries chunks), t2)
       | (Raise e, t2) => (Raise e, t2)
       end).2 = t ++ EmbedQuery query :: all_evs
      ∧ ∃ searches, all_evs = SummaryAggregate v 5 :: searches
          ∧ 1 ≤ length searches ≤ 3
          ∧ Forall (chunk_search_with v) searches) as Hrest.
  { intros evs collected Hone Hlen Hevs. subst t0.
    rewrite run_with_additional_chunks.
    assert (1 ≤ length evs ∨ collected = []) as Hevs1.
    { destruct collected; [by right|left; by apply Hone]. }
    case_bool_decide; [destruct (collected_ids collected) as [ids|] eqn:Hids|].
    - eexists. split; [simpl; by rewrite <- !app_assoc|].
      eexists. split; [done|]. rewrite length_app. simpl. split; [lia|].
      apply Forall_app. split; [done|]. by repeat constructor.
    - destruct Hevs1 as [?| ->]; [|done].
      eexists. split; [simpl; by rewrite <- !app_assoc|].
      eexists. split; [done|]. split; [lia|done].
    - destruct Hevs1 as [?| ->]; [|simpl in *; lia].
      eexists. split; [simpl; by rewrite <- !app_assoc|].
      eexists. split; [done|]. split; [lia|done]. }
  destruct summaries as [|s ss] eqn:Hs.
  { rewrite <- (app_nil_r t0). apply Hrest; [done|simpl; lia|constructor]. }
  cbv zeta.
  destruct (chunks_knn svc (length t0) v 10) as [docs|e].
  - destruct (run_stages (anchored_pipeline v (s :: ss)) docs) as [|c cs].
    + apply Hrest; [simpl; lia|simpl; lia|by repeat constructor].
    + apply Hrest; [simpl; lia|simpl; lia|by repeat constructor].
  - apply Hrest; [simpl; lia|simpl; lia|by repeat constructor].
Qed.

(** X4. When the store answers a query for five neighbours with at most
    five documents, the result of [search] holds at most ten chunks. *)
Theorem search_returns_at_most_ten_chunks query t :
  store_returns_at_most_five svc →
  match search svc query t with
  | (Ok found, _) => length (sr_chunks found) ≤ 10
  | (Raise _, _) => True
  end.
Proof.
  intros Hfive. rewrite run_search.
  destruct (embed_query svc (length t) query) as [v|e]; [|done]. cbv zeta.
  destruct (get_chunks_at_most_ten
              (summaries_or_nothing (summary_knn svc (S (length t)) v 5)) v
              (t ++ [EmbedQuery query; SummaryAggregate v 5]) Hfive)
    as (collected & t1 & -> & Hlen).
  rewrite run_with_additional_chunks.
  case_bool_decide; [destruct (collected_ids collected) as [ids|]|]; [|done|].
  - simpl. rewrite length_fmap.
    etrans; [apply process_chunks_length|]. rewrite length_app.
    pose proof (found_or_nothing_limit (direct_pipeline v ids)
                  (chunks_knn svc (length t1) v 10) 5 eq_refl). lia.
  - simpl. rewrite length_fmap.
    etrans; [apply process_chunks_length|]. done.
Qed.

(** X5. When [_get_chunks_from_summaries] ends after the anchored search
    alone, every chunk it returns is anchored to one of the summaries (by
    its summary id, or by a root id that is not empty), and there are at
    most ten of them. *)
Theorem chunks_without_fallback_are_anchored summaries v t collected :
  _get_chunks_from_summaries svc summaries v t
  = (Ok collected, t ++ [ChunkAggregate (anchored_pipeline v summaries)]) →
  Forall (anchored_to summaries) collected ∧ length collected ≤ 10.
Proof.
  rewrite run_get_chunks_from_summaries.
  destruct summaries as [|s ss].
  { intros H. injection H as _ Ht. rewrite <- (app_nil_r t) in Ht at 1.
    by apply app_inv_head in Ht. }
  cbv zeta.
  destruct (chunks_knn svc (length t) v 10) as [docs|e].
  2:{ intros H. injection H as <-. split; [constructor|simpl; lia]. }
  pose proof (run_stages_matches (anchored_pipeline v (s :: ss)) docs) as Hm.
  pose proof (run_stages_limit (anchored_pipeline v (s :: ss)) docs 10 eq_refl)
    as Hten.
  destruct (run_stages (anchored_pipeline v (s :: ss)) docs) as [|c cs].
  { intros H. injection H as _ Ht. by apply app_inv_head in Ht. }
  intros H. injection H as <-. split; [|done].
  eapply Forall_impl; [exact Hm|]. intros x. apply anchored_matches.
Qed.

(** X6. [_direct_chunk_search] never raises and queries the store once; it
    returns at most five chunks, none of which has a string [_id] that
    stands in the exclusion list. *)
Theorem direct_search_returns_at_most_five v ids t :
  ∃ found,
    _direct_chunk_search svc v ids t
    = (Ok found, t ++ [ChunkAggregate (direct_pipeline v ids)])
    ∧ length found ≤ 5
    ∧ Forall (λ c, ∀ s, chunk_id c = Some (StrId s) → s ∉ ids) found.
Proof.
  rewrite run_direct_chunk_search. eexists. split; [done|].
  destruct (chunks_knn svc (length t) v 10) as [docs|e]; simpl.
  - split; [by apply run_stages_limit|].
    eapply Forall_impl; [apply run_stages_matches|].
    intros c Hc s. by apply nin_excludes_listed_strings.
  - split; [lia|constructor].
Qed.

(** X7. When every document the store ranks has an ObjectId as [_id], the
    exclusion list has no effect: [_direct_chunk_search] returns the first
    five ranked documents whatever strings the list holds. *)
Theorem exclusion_list_is_inert_for_object_ids v ids t docs :
  chunks_knn svc (length t) v 10 = Ok docs →
  Forall (λ c, ∃ hex, chunk_id c = Some (ObjectId hex)) docs →
  _direct_chunk_search svc v ids t
  = (Ok (take 5 docs), t ++ [ChunkAggregate (direct_pipeline v ids)]).
Proof.
  intros Hdocs Hobj. rewrite run_direct_chunk_search, Hdocs. simpl.
  unfold run_stages. simpl. rewrite filter_all; [done|].
  eapply Forall_impl; [exact Hobj|]. intros c [hex Hc].
  apply Is_true_true. by eapply nin_keeps_object_ids.
Qed.

End SearchFacts.

(** ** Synthesis and the pipeline *)

Section SynthesisFacts.
Context (svc : Services).

Lemma has_evidence_not_nil found :
  has_evidence found →
  is_nil (sr_chunks found) && is_nil (sr_summaries found) = false.
Proof.
  intros [H|H]; destruct (sr_chunks found), (sr_summaries found); done.
Qed.

Lemma run_branch query found metadata t :
  (if negb (is_nil (sr_summaries found))
   then _generate_comprehensive_response svc query found metadata
   else _generate_chunks_response svc query found metadata) t
  = (match llm_ainvoke svc (length t) (synthesis_prompt query found) with
     | Ok answer =>
         Ok {| r_answer := answer;
               r_citations :=
                 _create_citations (sr_summaries found) (sr_chunks found);
               r_metadata := {[ "sources_used" := branch_sources found ]};
               r_confidence := branch_confidence found |}
     | Raise e => Raise e
     end, t ++ [LlmInvoke (synthesis_prompt query found)]).
Proof.
  unfold synthesis_prompt, branch_sources, branch_confidence.
  destruct (sr_summaries found) as [|s ss] eqn:Hs; simpl.
  - unfold _generate_chunks_response, try_except. rewrite run_bind.
    unfold call.
    by destruct (llm_ainvoke svc (length t) _).
  - unfold _generate_comprehensive_response, try_except. rewrite run_bind.
    unfold call. rewrite Hs.
    by destruct (llm_ainvoke svc (length t) _).
Qed.

Lemma run_generate_response_body query found metadata t :
  has_evidence found →
  generate_response_body svc query found metadata t
  = (match llm_ainvoke svc (length t) (synthesis_prompt query found) with
     | Ok answer =>
         Ok (update_metadata
               {| r_answer := answer;
                  r_citations :=
                    _create_citations (sr_summaries found) (sr_chunks found);
                  r_metadata := {[ "sources_used" := branch_sources found ]};
                  r_confidence := branch_confidence found |}
               (utcnow svc (S (length t)))
               (default (Py.PStr "unknown") (sr_metadata found !! "search_type"))
               metadata)
     | Raise e => Raise e
     end, t ++ [LlmInvoke (synthesis_prompt query found)]).
Proof.
  intros Hev. unfold generate_response_body.
  rewrite has_evidence_not_nil by done.
  rewrite run_bind, run_branch.
  destruct (llm_ainvoke svc (length t) _) as [answer|e]; [|done].
  rewrite run_bind. unfold now_iso.
  by rewrite length_app, Nat.add_1_r.
Qed.

(** X10. When there is evidence and the completion call raises,
    [generate_response] does not raise: it returns the error response, with
    the fixed apology, no citation, confidence 0.0, and the description of
    the exception and the time in its metadata, after that one call. *)
Theorem completion_failure_gives_error_response query found metadata t e :
  has_evidence found →
  llm_ainvoke svc (length t) (synthesis_prompt query found) = Raise e →
  generate_response svc query found metadata t
  = (Ok {| r_answer := "I apologize, but I encountered an error while processing your question.";
           r_citations := [];
           r_metadata :=
             {[ "error" := Py.PStr e;
                "error_time" := Py.PStr (utcnow svc (S (length t))) ]};
           r_confidence := 0%Q |},
     t ++ [LlmInvoke (synthesis_prompt query found)]).
Proof.
  intros Hev He. rewrite run_generate_response, run_generate_response_body, He
    by done.
  rewrite run_create_error_response. by rewrite length_app, Nat.add_1_r.
Qed.

(** X11. When there is evidence and the completion call answers,
    [generate_response] returns that answer unchanged, with one citation per
    summary and per chunk and the confidence of the branch it took, after
    that one call. *)
Theorem completion_answer_is_returned_verbatim query found metadata t answer :
  has_evidence found →
  llm_ainvoke svc (length t) (synthesis_prompt query found) = Ok answer →
  ∃ response,
    generate_response svc query found metadata t
    = (Ok response, t ++ [LlmInvoke (synthesis_prompt query found)])
    ∧ r_answer response = answer
    ∧ r_citations response
      = _create_citations (sr_summaries found) (sr_chunks found)
    ∧ r_confidence response = branch_confidence found.
Proof.
  intros Hev Ha. rewrite run_generate_response, run_generate_response_body, Ha
    by done.
  by eexists.
Qed.

(** X12. When there is evidence and the completion call answers, the
    metadata of the caller is merged last into the metadata of the
    response: every entry of the caller is found in the response, also
    under the keys processed_at, search_type and sources_used, which
    [generate_response] sets itself; those three carry the values of
    [generate_response] only when the caller has no entry for them. (Without
    evidence, and when the completion call fails, the response is a fixed
    one and the metadata of the caller is not in it.) *)
Theorem caller_metadata_takes_precedence query found metadata t answer :
  has_evidence found →
  llm_ainvoke svc (length t) (synthesis_prompt query found) = Ok answer →
  ∃ response t',
    generate_response svc query found (Some metadata) t = (Ok response, t')
    ∧ (∀ k v, metadata !! k = Some v → r_metadata response !! k = Some v)
    ∧ (metadata !! "processed_at" = None →
       r_metadata response !! "processed_at"
       = Some (Py.PStr (utcnow svc (S (length t)))))
    ∧ (metadata !! "search_type" = None →
       r_metadata response !! "search_type"
       = Some (default (Py.PStr "unknown") (sr_metadata found !! "search_type")))
    ∧ (metadata !! "sources_used" = None →
       r_metadata response !! "sources_used" = Some (branch_sources found)).
Proof.
  intros Hev Ha. rewrite run_generate_response, run_generate_response_body, Ha
    by done.
  eexists _, _. split; [done|]. simpl. split_and!.
  - intros k v Hk. by do 2 apply lookup_union_Some_l.
  - intros Hk. rewrite !lookup_union, Hk. by simplify_map_eq.
  - intros Hk. rewrite !lookup_union, Hk. by simplify_map_eq.
  - intros Hk. rewrite !lookup_union, Hk. by simplify_map_eq.
Qed.

End SynthesisFacts.

Section PipelineFacts.
Context (svc : Services).

Lemma run_process_query query metadata t :
  process_query svc query metadata t =
  match search svc query t with
  | (Raise e, t1) => (Ok (pipeline_error_response e), t1)
  | (Ok found, t1) =>
      match generate_response svc query found metadata t1 with
      | (Ok response, t2) =>
          (Ok (stamped response (utcnow svc (length t2)) found), t2)
      | (Raise e, t2) => (Ok (pipeline_error_response e), t2)
      end
  end.
Proof.
  unfold process_query, try_except. rewrite run_bind.
  destruct (search svc query t) as [[found|e] t1]; [|done].
  rewrite run_bind.
  by destruct (generate_response svc query found metadata t1)
    as [[response|e] t2].
Qed.

Lemma process_query_returns query metadata t :
  ∃ response t', process_query svc query metadata t = (Ok response, t').
Proof.
  rewrite run_process_query.
  destruct (search svc query t) as [[found|e] t1]; [|by eexists _, _].
  destruct (generate_response svc query found metadata t1)
    as [[response|e] t2]; by eexists _, _.
Qed.

(** X15. When the search returned, [process_query] returns a response
    whose metadata holds, whatever the synthesis or the caller stored there,
    the time read after the synthesis under processed_at and the numbers of
    summaries and chunks of the search result under sources_used. *)
Theorem process_query_stamps_its_own_counts query metadata t found t1 :
  search svc query t = (Ok found, t1) →
  ∃ response t',
    process_query svc query metadata t = (Ok response, t')
    ∧ r_metadata response !! "processed_at"
      = Some (Py.PStr (utcnow svc (length t')))
    ∧ r_metadata response !! "sources_used"
      = Some (Py.PDict
                [("summaries", Py.PInt (Z.of_nat (length (sr_summaries found))));
                 ("chunks", Py.PInt (Z.of_nat (length (sr_chunks found))))]).
Proof.
  intros Hs. rewrite run_process_query, Hs.
  destruct (generate_response_returns svc query found metadata t1)
    as (response & t2 & ->).
  eexists _, _. split; [done|]. simpl. by simplify_map_eq.
Qed.

(** X16. [process_query] returns a response that either cites nothing and
    has confidence 0.0, or cites every summary and every chunk of the search
    result: evidence is never cited in part. *)
Theorem response_cites_all_evidence_or_nothing query metadata t :
  ∃ response t',
    process_query svc query metadata t = (Ok response, t')
    ∧ ((r_citations response = [] ∧ r_confidence response = 0%Q)
       ∨ ∃ found t1,
           search svc query t = (Ok found, t1)
           ∧ r_citations response
             = _create_citations (sr_summaries found) (sr_chunks found)).
Proof.
  rewrite run_process_query.
  destruct (search svc query t) as [[found|e] t1] eqn:Hs;
    [|eexists _, _; split; [done|by left]].
  rewrite run_generate_response.
  destruct (is_nil (sr_chunks found) && is_nil (sr_summaries found)) eqn:Hnil.
  - unfold generate_response_body. rewrite Hnil.
    eexists _, _. split; [done|by left].
  - assert (has_evidence found) as Hev.
    { unfold has_evidence.
      destruct (sr_chunks found), (sr_summaries found); naive_solver. }
    rewrite run_generate_response_body by done.
    destruct (llm_ainvoke svc (length t1) _) as [answer|e].
    + eexists _, _. split; [done|]. right. by eexists _, _.
    + rewrite run_create_error_response. eexists _, _. split; [done|by left].
Qed.

Lemma run_batch_loop queries metadata responses t :
  ∃ more t',
    batch_loop svc queries metadata responses t
    = (Ok (responses ++ (BatchResponse <$> more)), t')
    ∧ Forall2 (λ query response,
         ∃ t0 t1, process_query svc query metadata t0 = (Ok response, t1))
       queries more.
Proof.
  revert responses t. induction queries as [|query rest IH]; intros responses t.
  { exists [], t. split; [by rewrite app_nil_r|constructor]. }
  cbn [batch_loop]. rewrite run_bind. unfold try_except at 1. rewrite run_bind.
  destruct (process_query_returns query metadata t) as (r & t1 & Hr).
  rewrite Hr. simpl.
  destruct (IH (responses ++ [BatchResponse r]) t1) as (more & t2 & -> & Hall).
  exists (r :: more), t2. rewrite <- app_assoc. split; [done|].
  constructor; [by eexists _, _|done].
Qed.

(** X17. [process_batch_queries] returns one entry per query, in the order
    of the queries, and every entry is a response of [process_query] for its
    query: the error entry of its except clause is never produced. *)
Theorem batch_answers_every_query queries metadata t :
  ∃ responses t',
    process_batch_queries svc queries metadata t
    = (Ok (BatchResponse <$> responses), t')
    ∧ length responses = length queries
    ∧ Forall2 (λ query response,
         ∃ t0 t1, process_query svc query metadata t0 = (Ok response, t1))
       queries responses.
Proof.
  destruct (run_batch_loop queries metadata [] t) as (more & t' & H & Hall).
  exists more, t'. split_and!; [done| |done].
  symmetry. by eapply Forall2_length.
Qed.

End PipelineFacts.

(** ** Confidence and duplicates *)

Section MoreConfidence.
Local Open Scope Q_scope.

(** X13. Without a summary the two aggregations agree: on every citation
    list [_calculate_confidence] with no summaries returns what
    [_calculate_chunk_confidence] returns. *)
Theorem confidence_agrees_without_summaries citations :
  _calculate_confidence citations [] == _calculate_chunk_confidence citations.
Proof.
  destruct citations as [|cit citations]; [done|].
  rewrite confidence_spec, chunk_confidence_spec.
  unfold spec_comprehensive_confidence, spec_chunks_only_confidence.
  cbn [is_nil negb fmap list_fmap app].
  apply capped_proper, arithmetic_mean_singleton.
Qed.

(** X14. With at least one summary and no negative chunk score, the
    confidence of the citations built from the evidence is at least 0.45,
    half of the weight a summary contributes. *)
Theorem comprehensive_confidence_at_least_half_of_summary_weight
    summary summaries chunks :
  Forall (λ c, 0 <= default 0.7 (chunk_score c)) chunks →
  0.45 <= _calculate_confidence
            (_create_citations (summary :: summaries) chunks)
            (summary :: summaries).
Proof.
  intros Hpos.
  set (citations := _create_citations (summary :: summaries) chunks).
  assert (Forall (λ x, 0 <= x) (citation_confidence <$> citations)) as Hall.
  { subst citations. unfold _create_citations, _create_chunk_citations.
    rewrite fmap_app, <- !list_fmap_compose. apply Forall_app.
    split; apply Forall_fmap.
    - by apply Forall_forall.
    - eapply Forall_impl; [exact Hpos|]. done. }
  subst citations. unfold _create_citations in *. rewrite fmap_cons in *.
  cbn [app] in *. rewrite confidence_spec.
  by apply spec_comprehensive_lower.
Qed.

End MoreConfidence.

(** Chunks of pairwise distinct normalized content all survive. *)
Lemma first_seen_all seen cs :
  NoDup (chunk_key <$> cs) →
  (∀ c, c ∈ cs → chunk_key c ∉ seen) →
  first_seen seen cs = processed_chunk <$> cs.
Proof.
  revert seen. induction cs as [|c cs IH]; intros seen Hnd Hseen; [done|].
  rewrite fmap_cons in Hnd. apply NoDup_cons in Hnd as [Hc Hnd].
  simpl. rewrite decide_False by (apply Hseen; left).
  f_equal. apply IH; [done|].
  intros x Hx. apply not_elem_of_union. split; [|apply Hseen; by right].
  apply not_elem_of_singleton. intros Heq. apply Hc.
  rewrite <- Heq. by apply list_elem_of_fmap_2.
Qed.

(** X8. When the normalized contents of the input chunks are pairwise
    distinct, [_process_chunks] drops nothing: its output is a permutation
    of the processed input chunks. *)
Theorem process_chunks_drops_only_duplicates cs :
  NoDup (chunk_key <$> cs) → _process_chunks cs ≡ₚ processed_chunk <$> cs.
Proof.
  intros Hnd. rewrite process_chunks_perm, first_seen_all; [done..|].
  intros c _. apply not_elem_of_empty.
Qed.

(** X9. Two contents are duplicates for [_process_chunks], that is have
    the same normalized content, exactly when their lower-cased texts split
    into the same list of words. *)
Theorem normalized_equal_iff_same_words a b :
  _normalize_content a = _normalize_content b
  ↔ Py.split (Py.lower a) = Py.split (Py.lower b).
Proof.
  unfold _normalize_content. split; [|by intros ->].
  intros H. apply (f_equal Py.split) in H.
  by rewrite !PyFacts.split_join in H by apply PyFacts.split_words.
Qed.

(** ** Text built-ins *)

Section TextFacts.

Lemma starts_with_app p x y :
  starts_with p x = true → starts_with p (x +:+ y) = true.
Proof.
  revert x. induction p as [|a p IH]; intros x; [done|].
  destruct x as [|b x]; [done|]. simpl.
  intros [-> H]%andb_prop. by rewrite IH.
Qed.

Lemma contains_app_l pat x y :
  contains pat x = true → contains pat (x +:+ y) = true.
Proof.
  induction x as [|c x IH]; simpl.
  - rewrite orb_false_r. intros H%(starts_with_app _ _ y).
    change (EmptyString +:+ y) with y in *.
    destruct y; cbn [contains]; by rewrite H.
  - intros [H|H]%orb_prop.
    + apply (starts_with_app _ _ y) in H.
      change (String c x +:+ y) with (String c (x +:+ y)) in *.
      cbn [contains]. by rewrite H.
    + change (String c x +:+ y) with (String c (x +:+ y)).
      cbn [contains]. rewrite (IH H). apply orb_true_r.
Qed.

Lemma contains_cons pat c s :
  contains pat s = true → contains pat (String c s) = true.
Proof. intros H. cbn [contains]. rewrite H. apply orb_true_r. Qed.

Lemma lstrip_contains pat s :
  contains pat (lstrip s) = true → contains pat s = true.
Proof.
  induction s as [|c s IH]; [done|]. cbn [lstrip].
  destruct (Py.isspace c); [|done].
  intros H%IH. by apply contains_cons.
Qed.

(** [rstrip] cuts a tail off. *)
Lemma rstrip_app s : ∃ tail, s = rstrip s +:+ tail.
Proof.
  induction s as [|c s [tail IH]]; [by exists ""|]. cbn [rstrip].
  destruct (rstrip s) as [|d r].
  - destruct (Py.isspace c).
    + by exists (String c s).
    + exists s. done.
  - exists tail. change (String c s = String c (String d r +:+ tail)).
    by rewrite <- IH.
Qed.

Lemma rstrip_contains pat s :
  contains pat (rstrip s) = true → contains pat s = true.
Proof.
  destruct (rstrip_app s) as [tail Hs]. intros H.
  rewrite Hs. by apply contains_app_l.
Qed.

Lemma strip_contains pat s :
  contains pat (strip s) = true → contains pat s = true.
Proof. unfold strip. by intros H%rstrip_contains%lstrip_contains. Qed.

Lemma rstrip_idem s : rstrip (rstrip s) = rstrip s.
Proof.
  induction s as [|c s IH]; [done|]. cbn [rstrip].
  destruct (rstrip s) as [|d r] eqn:Hr.
  - destruct (Py.isspace c) eqn:Hc; [done|]. simpl. by rewrite Hc.
  - cbn [rstrip]. cbn [rstrip] in IH. by rewrite IH.
Qed.

Lemma rstrip_head c s :
  Py.isspace c = false → ∃ r, rstrip (String c s) = String c r.
Proof.
  intros Hc. cbn [rstrip]. destruct (rstrip s); rewrite ?Hc; by eexists.
Qed.

Lemma lstrip_head s :
  lstrip s = EmptyString ∨ ∃ c r, lstrip s = String c r ∧ Py.isspace c = false.
Proof.
  induction s as [|c s IH]; [by left|]. cbn [lstrip].
  destruct (Py.isspace c) eqn:Hc; [done|]. right. by exists c, s.
Qed.

Lemma strip_idem s : strip (strip s) = strip s.
Proof.
  unfold strip. destruct (lstrip_head s) as [->|(c & r & -> & Hc)]; [done|].
  destruct (rstrip_head c r Hc) as [r' Hr]. rewrite Hr.
  cbn [lstrip]. rewrite Hc, <- Hr. apply rstrip_idem.
Qed.

End TextFacts.

Section SubstitutionFacts.

Lemma starts_with_cons a p b s :
  starts_with (String a p) (String b s) = Ascii.eqb a b && starts_with p s.
Proof. done. Qed.

Lemma contains_eq pat s :
  contains pat s
  = starts_with pat s
    || match s with
       | EmptyString => false
       | String _ s' => contains pat s'
       end.
Proof. by destruct s. Qed.

(** A substitution step that only drops characters [c] standing before a
    [c] keeps the first character. *)
Lemma sub_spaces_head a s :
  starts_with (String a EmptyString) (sub_spaces s)
  = starts_with (String a EmptyString) s.
Proof.
  induction s as [|c s IH]; [done|]. cbn [sub_spaces].
  destruct (starts_with "  " (String c s)) eqn:Hd; [|done].
  rewrite IH. rewrite starts_with_cons in Hd.
  apply andb_prop in Hd as [Hc Hd]. apply Ascii.eqb_eq in Hc as <-.
  destruct s as [|d s]; [done|]. rewrite starts_with_cons in Hd.
  apply andb_prop in Hd as [Hd _]. by apply Ascii.eqb_eq in Hd as <-.
Qed.

Lemma sub_spaces_no_double s : contains "  " (sub_spaces s) = false.
Proof.
  induction s as [|c s IH]; [done|]. cbn [sub_spaces].
  destruct (starts_with "  " (String c s)) eqn:Hd; [done|].
  rewrite contains_eq, IH, orb_false_r.
  rewrite starts_with_cons in *. by rewrite sub_spaces_head.
Qed.

Lemma sub_newlines_head a s :
  starts_with (String a EmptyString) (sub_newlines s)
  = starts_with (String a EmptyString) s.
Proof.
  induction s as [|c s IH]; [done|]. cbn [sub_newlines].
  destruct (starts_with LF3 (String c s)) eqn:Hd; [|done].
  rewrite IH. unfold LF3 in Hd. rewrite starts_with_cons in Hd.
  apply andb_prop in Hd as [Hc Hd]. apply Ascii.eqb_eq in Hc as <-.
  destruct s as [|d s]; [done|]. unfold LF2 in Hd.
  rewrite starts_with_cons in Hd.
  apply andb_prop in Hd as [Hd _]. by apply Ascii.eqb_eq in Hd as <-.
Qed.

Lemma starts_with_LF2_LF1 s :
  starts_with LF2 s = true → starts_with LF1 s = true.
Proof.
  destruct s as [|d s]; [done|]. unfold LF2, LF1.
  rewrite !starts_with_cons. by intros [-> _]%andb_prop.
Qed.

Lemma sub_newlines_head2 s :
  starts_with LF2 (sub_newlines s) = starts_with LF2 s.
Proof.
  induction s as [|c s IH]; [done|]. cbn [sub_newlines].
  destruct (starts_with LF3 (String c s)) eqn:Hd.
  - rewrite IH. unfold LF3 in Hd. rewrite starts_with_cons in Hd.
    apply andb_prop in Hd as [Hc Hd]. rewrite Hd.
    apply starts_with_LF2_LF1 in Hd.
    unfold LF2. rewrite starts_with_cons, Hc. by rewrite Hd.
  - unfold LF2, LF1. rewrite !starts_with_cons. by rewrite sub_newlines_head.
Qed.

Lemma sub_newlines_no_triple s : contains LF3 (sub_newlines s) = false.
Proof.
  induction s as [|c s IH]; [done|]. cbn [sub_newlines].
  destruct (starts_with LF3 (String c s)) eqn:Hd; [done|].
  rewrite contains_eq, IH, orb_false_r.
  unfold LF3 in *. rewrite starts_with_cons in *.
  by rewrite sub_newlines_head2.
Qed.

Lemma sub_newlines_contains_spaces s :
  contains "  " (sub_newlines s) = true → contains "  " s = true.
Proof.
  induction s as [|c s IH]; [done|]. cbn [sub_newlines].
  destruct (starts_with LF3 (String c s)) eqn:Hd.
  - intros H%IH. by apply contains_cons.
  - rewrite !(contains_eq _ (String c _)).
    intros [H|H]%orb_prop.
    + rewrite starts_with_cons in *. rewrite sub_newlines_head in H.
      by rewrite H.
    + rewrite (IH H). apply orb_true_r.
Qed.

End SubstitutionFacts.

(** ** Ingestion *)

Lemma normalize_whitespace_facts text :
  contains "  " (_normalize_whitespace text) = false
  ∧ contains LF3 (_normalize_whitespace text) = false
  ∧ strip (_normalize_whitespace text) = _normalize_whitespace text.
Proof.
  unfold _normalize_whitespace. split_and!.
  - apply not_true_is_false. intros H%strip_contains.
    apply sub_newlines_contains_spaces in H.
    by rewrite sub_spaces_no_double in H.
  - apply not_true_is_false. intros H%strip_contains.
    by rewrite sub_newlines_no_triple in H.
  - apply strip_idem.
Qed.

(** X18. The text [_normalize_whitespace] returns never holds two spaces
    in a row nor three line feeds in a row, and has no white space at
    either end. *)
Theorem normalize_whitespace_normal_form text :
  contains "  " (_normalize_whitespace text) = false
  ∧ contains LF3 (_normalize_whitespace text) = false
  ∧ strip (_normalize_whitespace text) = _normalize_whitespace text.
Proof. apply normalize_whitespace_facts. Qed.

(** X20. [clean_content] never raises. It returns the normalized text of
    the HTML parser, or, when the parser raises, the normalized content
    itself, tags included; either way the result is in the normal form of
    [_normalize_whitespace]. The fallback cleaning of the except clause is
    never reached. *)
Theorem clean_content_is_normalized_text get_text content :
  clean_content get_text content
  = _normalize_whitespace
      (match get_text (Some LF1) content with
       | Ok text => text
       | Raise _ => content
       end)
  ∧ contains "  " (clean_content get_text content) = false
  ∧ contains LF3 (clean_content get_text content) = false
  ∧ strip (clean_content get_text content) = clean_content get_text content.
Proof.
  assert (clean_content get_text content
          = _normalize_whitespace (_remove_html_safely get_text content)) as ->.
  { unfold clean_content. apply normalize_whitespace_facts. }
  split; [done|]. apply normalize_whitespace_facts.
Qed.

Section RootIdFacts.

Lemma split_on_go_nonempty sep skip s : split_on_go sep skip s ≠ [].
Proof.
  revert skip. induction s as [|c s IH]; intros skip; [done|].
  cbn [split_on_go]. destruct skip as [|k]; [|apply IH].
  destruct (starts_with sep (String c s)); [done|].
  by destruct (split_on_go sep 0 s).
Qed.

Lemma extract_root_id_cons c s :
  _extract_root_id (String c s)
  = if Ascii.eqb "_"%char c then EmptyString else String c (_extract_root_id s).
Proof.
  unfold _extract_root_id, split_on. cbn [split_on_go].
  rewrite starts_with_cons. rewrite andb_true_r.
  destruct (Ascii.eqb "_"%char c); [done|].
  pose proof (split_on_go_nonempty "_" 0 s).
  by destruct (split_on_go "_" 0 s).
Qed.

Lemma contains_underscore_cons c s :
  contains "_" (String c s) = Ascii.eqb "_"%char c || contains "_" s.
Proof. rewrite contains_eq, starts_with_cons. by rewrite andb_true_r. Qed.

Lemma extract_root_id_facts path :
  contains "_" (_extract_root_id path) = false
  ∧ starts_with (_extract_root_id path) path = true
  ∧ (contains "_" path = false → _extract_root_id path = path).
Proof.
  induction path as [|c s (IH1 & IH2 & IH3)]; [done|].
  rewrite extract_root_id_cons, contains_underscore_cons.
  destruct (Ascii.eqb "_"%char c) eqn:Hc; [done|]. split_and!.
  - by rewrite contains_underscore_cons, Hc.
  - rewrite starts_with_cons, IH2. by rewrite Ascii.eqb_refl.
  - simpl. intros H. by rewrite IH3.
Qed.

(** X21. [_extract_root_id] gives back the root of a component path: for
    a root without underscore, the path made of the root, an underscore
    and any rest has that root as its root id. *)
Theorem extract_root_id_round_trip root rest :
  contains "_" root = false →
  _extract_root_id (root +:+ "_" +:+ rest) = root.
Proof.
  induction root as [|c root IH]; [done|].
  rewrite contains_underscore_cons. intros [Hc H]%orb_false_elim.
  change (String c root +:+ "_" +:+ rest)
    with (String c (root +:+ "_" +:+ rest)).
  by rewrite extract_root_id_cons, Hc, IH.
Qed.

Lemma extract_root_id_tail path :
  ∃ tail,
    path = _extract_root_id path +:+ tail
    ∧ (tail = EmptyString ∨ starts_with "_" tail = true).
Proof.
  induction path as [|c s (tail & Hs & Htail)]; [exists EmptyString; by split; [|left]|].
  rewrite extract_root_id_cons.
  destruct (Ascii.eqb "_"%char c) eqn:Hc.
  - exists (String c s). split; [done|]. right.
    by rewrite starts_with_cons, Hc.
  - exists tail. split; [|done].
    change (String c (_extract_root_id s) +:+ tail)
      with (String c (_extract_root_id s +:+ tail)).
    by rewrite <- Hs.
Qed.

(** X22. [_extract_root_id] splits every path at its first underscore: the
    root id holds no underscore, and the path is the root id followed by
    nothing or by a tail that starts with an underscore. *)
Theorem extract_root_id_splits_at_first_underscore path :
  ∃ tail,
    path = _extract_root_id path +:+ tail
    ∧ (tail = EmptyString ∨ starts_with "_" tail = true)
    ∧ contains "_" (_extract_root_id path) = false.
Proof.
  destruct (extract_root_id_tail path) as (tail & Hpath & Htail).
  exists tail. split_and!; [done..|]. apply extract_root_id_facts.
Qed.

End RootIdFacts.

Section IdempotenceFacts.

Lemma contains_cons_false pat c s :
  contains pat (String c s) = false →
  starts_with pat (String c s) = false ∧ contains pat s = false.
Proof. rewrite contains_eq. apply orb_false_elim. Qed.

Lemma sub_spaces_id s : contains "  " s = false → sub_spaces s = s.
Proof.
  induction s as [|c s IH]; [done|].
  intros [Hd Hs]%contains_cons_false. cbn [sub_spaces].
  by rewrite Hd, IH.
Qed.

Lemma sub_newlines_id s : contains LF3 s = false → sub_newlines s = s.
Proof.
  induction s as [|c s IH]; [done|].
  intros [Hd Hs]%contains_cons_false. cbn [sub_newlines].
  by rewrite Hd, IH.
Qed.

Lemma starts_with_CRLF c s :
  starts_with CRLF (String c s) = true → Ascii.eqb CR c = true.
Proof. unfold CRLF. rewrite starts_with_cons. by intros [-> _]%andb_prop. Qed.

Lemma contains_CR_cons c s :
  contains CR1 (String c s) = Ascii.eqb CR c || contains CR1 s.
Proof.
  rewrite contains_eq. unfold CR1. rewrite starts_with_cons.
  by rewrite andb_true_r.
Qed.

Lemma replace_crlf_id s :
  contains CR1 s = false → replace CRLF LF1 s = s.
Proof.
  unfold replace. induction s as [|c s IH]; [done|].
  rewrite contains_CR_cons. intros [Hc Hs]%orb_false_elim.
  cbn [replace_go].
  destruct (starts_with CRLF (String c s)) eqn:Hd.
  - apply starts_with_CRLF in Hd. congruence.
  - by rewrite IH.
Qed.

Lemma sub_spaces_CR s :
  contains CR1 s = false → contains CR1 (sub_spaces s) = false.
Proof.
  induction s as [|c s IH]; [done|].
  rewrite contains_CR_cons. intros [Hc Hs]%orb_false_elim.
  cbn [sub_spaces]. destruct (starts_with "  " (String c s)); [by apply IH|].
  rewrite contains_CR_cons, Hc. by apply IH.
Qed.

Lemma sub_newlines_CR s :
  contains CR1 s = false → contains CR1 (sub_newlines s) = false.
Proof.
  induction s as [|c s IH]; [done|].
  rewrite contains_CR_cons. intros [Hc Hs]%orb_false_elim.
  cbn [sub_newlines]. destruct (starts_with LF3 (String c s)); [by apply IH|].
  rewrite contains_CR_cons, Hc. by apply IH.
Qed.

Lemma strip_absent pat s :
  contains pat s = false → contains pat (strip s) = false.
Proof.
  intros H. apply not_true_is_false. intros H'%strip_contains. congruence.
Qed.

(** X19. On a text without carriage return, [_normalize_whitespace] is
    idempotent. *)
Theorem normalize_whitespace_idempotent_without_cr text :
  contains CR1 text = false →
  _normalize_whitespace (_normalize_whitespace text)
  = _normalize_whitespace text.
Proof.
  intros Hcr.
  destruct (normalize_whitespace_facts text) as (Hsp & Hnl & Hstrip).
  assert (contains CR1 (_normalize_whitespace text) = false) as Hcr'.
  { unfold _normalize_whitespace.
    apply strip_absent, sub_newlines_CR, sub_spaces_CR.
    by rewrite replace_crlf_id. }
  unfold _normalize_whitespace at 1.
  by rewrite replace_crlf_id, sub_spaces_id, sub_newlines_id.
Qed.

(** A carriage return before a line end survives the first pass only. *)
Example normalize_whitespace_not_idempotent :
  let text := "a" +:+ CR1 +:+ CRLF +:+ "b" in
  _normalize_whitespace text = "a" +:+ CRLF +:+ "b"
  ∧ _normalize_whitespace (_normalize_whitespace text) = "a" +:+ LF1 +:+ "b".
Proof. by vm_compute. Qed.

End IdempotenceFacts.

Section ParseFacts.
Context (json_loads : string → attempt pyval).
Context (second_attempt : string → attempt pyval).


Lemma load_chunk_ok raw_chunk data :
  load_chunk json_loads second_attempt raw_chunk = inr data →
  json_loads raw_chunk = inr data.
Proof.
  unfold load_chunk. destruct (json_loads raw_chunk) as [e|d]; [|done].
  by destruct e.
Qed.

Lemma parse_chunk_ok i raw_chunk chunk :
  parse_chunk json_loads second_attempt i raw_chunk = inr chunk →
  (accepted_as_object json_loads) raw_chunk chunk.
Proof.
  unfold parse_chunk.
  destruct (String.length raw_chunk <=? 31) eqn:Hlen; [done|].
  apply Nat.leb_gt in Hlen.
  destruct (load_chunk _ _ raw_chunk) as [e|data] eqn:Hload; [done|].
  apply load_chunk_ok in Hload.
  destruct (has_required_fields data) as [e|[]] eqn:Hreq; [done| |done].
  destruct data as [| | | | |l|kvs];
    try (by (simpl; intros ?) || by destruct (py_getitem _ _) as [?|[]]).
  unfold has_required_fields in Hreq. simpl in Hreq.
  case_bool_decide as Hcontent; [|done]. injection Hreq as Hmeta.
  apply bool_decide_eq_true in Hmeta.
  destruct Hcontent as [v Hv]. simpl. rewrite Hv.
  intros Hchunk. exists kvs. split_and!; [done|lia|done|].
  exists v. split; [done|]. destruct v; by injection Hchunk as <-.
Qed.

Lemma parse_loop_ok i raw_chunks acc chunks :
  parse_loop json_loads second_attempt i raw_chunks acc = inr chunks →
  ∃ new, chunks = acc ++ new ∧ Forall2 (accepted_as_object json_loads) raw_chunks new.
Proof.
  revert i acc. induction raw_chunks as [|raw rest IH]; intros i acc; simpl.
  { intros [= <-]. exists []. by rewrite app_nil_r. }
  destruct (parse_chunk _ _ i raw) as [e|chunk] eqn:Hchunk; [done|].
  intros (new & -> & Hnew)%IH. exists (chunk :: new).
  rewrite <- app_assoc. split; [done|].
  constructor; [by eapply parse_chunk_ok|done].
Qed.

(** X23. When [_parse_chunks] returns, it returns at least one chunk, and
    one chunk per raw chunk of the response, in order; every raw chunk had
    more than 31 characters and was accepted by [json.loads] as it stood,
    as an object with both required keys. A raw chunk that needs the
    repair path is never returned: the pattern of the repair does not
    compile. *)
Theorem parsed_chunks_were_valid_as_sent llm_response chunks :
  _parse_chunks json_loads second_attempt llm_response = inr chunks →
  chunks ≠ []
  ∧ Forall2 (accepted_as_object json_loads) (raw_chunks_of llm_response) chunks.
Proof.
  unfold _parse_chunks.
  destruct (raw_chunks_of llm_response) as [|raw rest] eqn:Hraw; [done|].
  intros (new & -> & Hnew)%parse_loop_ok. split; [|done].
  inversion Hnew; by subst.
Qed.

End ParseFacts.

(** ** Chat API *)

Section HistoryFacts.
Context {R : Type}.
Implicit Types (conversations : gmap string (list (HistoryEntry R))).

Lemma update_history_lookup conversations max_history id message
    (response : R) timestamp :
  _update_history conversations max_history id message response timestamp !! id
  = Some (last_n max_history
            (default [] (conversations !! id)
             ++ [mkHistoryEntry message response timestamp])).
Proof.
  unfold _update_history.
  destruct (conversations !! id) as [old|] eqn:Hold.
  - rewrite !lookup_alter_eq, Hold. done.
  - rewrite !lookup_alter_eq, lookup_insert_eq. done.
Qed.

Lemma last_n_length {A} n (l : list A) :
  0 < n → length (last_n n l) = length l `min` n.
Proof.
  intros Hn. destruct n as [|n]; [lia|]. unfold last_n.
  rewrite length_drop. lia.
Qed.

Lemma last_n_suffix {A} n (l : list A) : last_n n l `suffix_of` l.
Proof. destruct n; [done|]. apply suffix_drop. Qed.

Lemma last_n_last {A} n (l : list A) : 0 < n → last (last_n n l) = last l.
Proof.
  intros Hn. destruct n as [|n]; [lia|]. unfold last_n.
  destruct l as [|x l _] using rev_ind; [done|].
  rewrite length_app. simpl length.
  rewrite drop_app_le by lia. by rewrite !last_snoc.
Qed.

(** X24. With a positive bound, [_update_history] leaves under the
    conversation id a history that ends with the new entry, is the end of
    the old history followed by the new entry, and holds the smaller of the
    bound and one more than the old length. *)
Theorem update_history_keeps_the_latest conversations max_history id message
    (response : R) timestamp :
  0 < max_history →
  ∃ history,
    _update_history conversations max_history id message response timestamp
      !! id = Some history
    ∧ length history
      = S (length (default [] (conversations !! id))) `min` max_history
    ∧ last history = Some (mkHistoryEntry message response timestamp)
    ∧ history `suffix_of`
        default [] (conversations !! id)
        ++ [mkHistoryEntry message response timestamp].
Proof.
  intros Hmax. eexists. split; [apply update_history_lookup|].
  split_and!.
  - rewrite last_n_length by done. by rewrite length_app, Nat.add_1_r.
  - rewrite last_n_last by done. apply last_snoc.
  - apply last_n_suffix.
Qed.

(** X25. [_update_history] changes the history of one conversation only:
    every other conversation id maps to what it mapped to before. *)
Theorem update_history_leaves_other_conversations conversations max_history
    id other message (response : R) timestamp :
  other ≠ id →
  _update_history conversations max_history id message response timestamp
    !! other = conversations !! other.
Proof.
  intros Hne. assert (id ≠ other) as Hne' by congruence.
  unfold _update_history. rewrite !lookup_alter_ne by done.
  destruct (conversations !! id); [done|]. by rewrite lookup_insert_ne.
Qed.

End HistoryFacts.

(** X26. The validator [message_must_not_be_empty] either returns the
    stripped message, which is then not empty and passes the validator
    unchanged, or raises its fixed error, exactly when the message holds
    white space only. *)
Theorem validated_message_is_stripped_and_not_empty v :
  match message_must_not_be_empty v with
  | Ok message =>
      message = strip v ∧ message ≠ EmptyString
      ∧ message_must_not_be_empty message = Ok message
  | Raise e => strip v = EmptyString ∧ e = "Message cannot be empty"
  end.
Proof.
  unfold message_must_not_be_empty.
  destruct (strip v) as [|c s] eqn:Hs; [done|].
  split_and!; [done..|]. by rewrite <- Hs, strip_idem, Hs.
Qed.

(** ** The properties above on the example data *)

(** X1 on a store of chunks with ObjectIds, after the embedding and the
    summary search. *)
Lemma chunk_retrieval_returns_when_chunks_have_ids_witness :
  let t := [EmbedQuery Examples.the_query; SummaryAggregate [1%Q] 5] in
  store_has_ids Examples.svc_overlap
  ∧ ∃ collected t1 chunks t2,
      _get_chunks_from_summaries Examples.svc_overlap [Examples.summary_1]
        [1%Q] t = (Ok collected, t1)
      ∧ with_additional_chunks Examples.svc_overlap [1%Q] collected t1
        = (Ok chunks, t2)
      ∧ Forall (λ c, is_Some (chunk_id c)) chunks.
Proof.
  intros t.
  assert (store_has_ids Examples.svc_overlap) as Hids.
  { intros n v k docs [= <-]. repeat (constructor; [by eexists|]). constructor. }
  split; [exact Hids|].
  exact (chunk_retrieval_returns_when_chunks_have_ids Examples.svc_overlap
           [Examples.summary_1] [1%Q] t Hids).
Defined.

(** X2 on a store whose summary search fails. *)
Lemma search_without_summaries_witness :
  embed_query Samples.svc_no_summaries 0 Examples.the_query = Ok [1%Q]
  ∧ summaries_or_nothing (summary_knn Samples.svc_no_summaries 1 [1%Q] 5) = []
  ∧ search Samples.svc_no_summaries Examples.the_query []
    = (Ok (search_result_of [] [Examples.chunk_b; Examples.chunk_c]),
       [EmbedQuery Examples.the_query; SummaryAggregate [1%Q] 5;
        ChunkAggregate (direct_pipeline [1%Q] [])]).
Proof.
  assert (embed_query Samples.svc_no_summaries (length ([] : trace))
            Examples.the_query = Ok [1%Q]) as Hv by reflexivity.
  assert (summaries_or_nothing
            (summary_knn Samples.svc_no_summaries (S (length ([] : trace)))
               [1%Q] 5) = []) as Hs by reflexivity.
  split; [exact Hv|]. split; [exact Hs|].
  exact (search_without_summaries Samples.svc_no_summaries Examples.the_query
           [1%Q] [] Hv Hs).
Defined.

(** X4 on a store that returns the nearest [k] of six chunks. *)
Lemma search_returns_at_most_ten_chunks_witness :
  store_returns_at_most_five Samples.svc_top_k
  ∧ match search Samples.svc_top_k Examples.the_query [] with
    | (Ok found, _) => length (sr_chunks found) ≤ 10
    | (Raise _, _) => True
    end.
Proof.
  assert (store_returns_at_most_five Samples.svc_top_k) as Hfive.
  { intros n v docs [= <-]. simpl. lia. }
  split; [exact Hfive|].
  exact (search_returns_at_most_ten_chunks Samples.svc_top_k Examples.the_query
           [] Hfive).
Defined.

(** X5 on a store where one of the nearest chunks hangs under the summary. *)
Lemma chunks_without_fallback_are_anchored_witness :
  _get_chunks_from_summaries Examples.svc_overlap [Examples.summary_1] [1%Q] []
  = (Ok [Examples.chunk_a],
     [] ++ [ChunkAggregate (anchored_pipeline [1%Q] [Examples.summary_1])])
  ∧ Forall (anchored_to [Examples.summary_1]) [Examples.chunk_a]
  ∧ length [Examples.chunk_a] ≤ 10.
Proof.
  assert (_get_chunks_from_summaries Examples.svc_overlap [Examples.summary_1]
            [1%Q] []
          = (Ok [Examples.chunk_a],
             [] ++ [ChunkAggregate
                      (anchored_pipeline [1%Q] [Examples.summary_1])]))
    as Hrun by reflexivity.
  split; [exact Hrun|].
  exact (chunks_without_fallback_are_anchored Examples.svc_overlap
           [Examples.summary_1] [1%Q] [] [Examples.chunk_a] Hrun).
Defined.

(** X7 on a store of ObjectIds, with the id of its nearest chunk in the
    exclusion list: the chunk is returned all the same. *)
Lemma exclusion_list_is_inert_for_object_ids_witness :
  let docs := [Examples.chunk_a; Examples.chunk_b; Examples.chunk_c;
               Examples.chunk_d; Examples.chunk_e; Examples.chunk_f] in
  let ids := ["65f1c0de0000000000000a01"] in
  chunks_knn Examples.svc_overlap 0 [1%Q] 10 = Ok docs
  ∧ Forall (λ c, ∃ hex, chunk_id c = Some (ObjectId hex)) docs
  ∧ _direct_chunk_search Examples.svc_overlap [1%Q] ids []
    = (Ok (take 5 docs), [] ++ [ChunkAggregate (direct_pipeline [1%Q] ids)]).
Proof.
  intros docs ids.
  assert (chunks_knn Examples.svc_overlap (length ([] : trace)) [1%Q] 10
          = Ok docs) as Hdocs by reflexivity.
  assert (Forall (λ c, ∃ hex, chunk_id c = Some (ObjectId hex)) docs) as Hobj.
  { repeat (constructor; [by eexists|]). constructor. }
  split; [exact Hdocs|]. split; [exact Hobj|].
  exact (exclusion_list_is_inert_for_object_ids Examples.svc_overlap [1%Q] ids
           [] docs Hdocs Hobj).
Defined.

(** X8 on three chunks of different texts. *)
Lemma process_chunks_drops_only_duplicates_witness :
  let cs := [Examples.chunk_a; Examples.chunk_unscored; Examples.chunk_b] in
  NoDup (chunk_key <$> cs)
  ∧ _process_chunks cs ≡ₚ processed_chunk <$> cs.
Proof.
  intros cs.
  assert (NoDup (chunk_key <$> cs)) as Hnd.
  { apply (bool_decide_unpack _). by vm_compute. }
  split; [exact Hnd|].
  exact (process_chunks_drops_only_duplicates cs Hnd).
Defined.

(** X10 on a completion service that is down. *)
Lemma completion_failure_gives_error_response_witness :
  has_evidence Samples.evidence
  ∧ llm_ainvoke Samples.svc_llm_down 0
      (synthesis_prompt Examples.the_query Samples.evidence)
    = Raise "rate limit exceeded"
  ∧ generate_response Samples.svc_llm_down Examples.the_query Samples.evidence
      None []
    = (Ok {| r_answer := "I apologize, but I encountered an error while processing your question.";
             r_citations := [];
             r_metadata :=
               {[ "error" := Py.PStr "rate limit exceeded";
                  "error_time" :=
                    Py.PStr (utcnow Samples.svc_llm_down 1) ]};
             r_confidence := 0%Q |},
       [] ++ [LlmInvoke (synthesis_prompt Examples.the_query Samples.evidence)]).
Proof.
  assert (has_evidence Samples.evidence) as Hev by (by left).
  assert (llm_ainvoke Samples.svc_llm_down (length ([] : trace))
            (synthesis_prompt Examples.the_query Samples.evidence)
          = Raise "rate limit exceeded") as He by reflexivity.
  split; [exact Hev|]. split; [exact He|].
  exact (completion_failure_gives_error_response Samples.svc_llm_down
           Examples.the_query Samples.evidence None [] "rate limit exceeded"
           Hev He).
Defined.

(** X11 on one summary and two chunks. *)
Lemma completion_answer_is_returned_verbatim_witness :
  has_evidence Samples.evidence
  ∧ llm_ainvoke Examples.svc_overlap 0
      (synthesis_prompt Examples.the_query Samples.evidence) = Ok "Yes."
  ∧ ∃ response,
      generate_response Examples.svc_overlap Examples.the_query
        Samples.evidence None []
      = (Ok response,
         [] ++ [LlmInvoke
                  (synthesis_prompt Examples.the_query Samples.evidence)])
      ∧ r_answer response = "Yes."
      ∧ r_citations response
        = _create_citations (sr_summaries Samples.evidence)
            (sr_chunks Samples.evidence)
      ∧ r_confidence response = branch_confidence Samples.evidence.
Proof.
  assert (has_evidence Samples.evidence) as Hev by (by left).
  assert (llm_ainvoke Examples.svc_overlap (length ([] : trace))
            (synthesis_prompt Examples.the_query Samples.evidence)
          = Ok "Yes.") as Ha by reflexivity.
  split; [exact Hev|]. split; [exact Ha|].
  exact (completion_answer_is_returned_verbatim Examples.svc_overlap
           Examples.the_query Samples.evidence None [] "Yes." Hev Ha).
Defined.

(** X12 on a caller that passes one entry of its own. *)
Lemma caller_metadata_takes_precedence_witness :
  has_evidence Samples.evidence
  ∧ llm_ainvoke Examples.svc_overlap 0
      (synthesis_prompt Examples.the_query Samples.evidence) = Ok "Yes."
  ∧ ∃ response t',
      generate_response Examples.svc_overlap Examples.the_query
        Samples.evidence (Some Samples.caller_metadata) []
      = (Ok response, t')
      ∧ (∀ k v, Samples.caller_metadata !! k = Some v →
                r_metadata response !! k = Some v)
      ∧ (Samples.caller_metadata !! "processed_at" = None →
         r_metadata response !! "processed_at"
         = Some (Py.PStr (utcnow Examples.svc_overlap 1)))
      ∧ (Samples.caller_metadata !! "search_type" = None →
         r_metadata response !! "search_type"
         = Some (default (Py.PStr "unknown")
                   (sr_metadata Samples.evidence !! "search_type")))
      ∧ (Samples.caller_metadata !! "sources_used" = None →
         r_metadata response !! "sources_used"
         = Some (branch_sources Samples.evidence)).
Proof.
  assert (has_evidence Samples.evidence) as Hev by (by left).
  assert (llm_ainvoke Examples.svc_overlap (length ([] : trace))
            (synthesis_prompt Examples.the_query Samples.evidence)
          = Ok "Yes.") as Ha by reflexivity.
  split; [exact Hev|]. split; [exact Ha|].
  exact (caller_metadata_takes_precedence Examples.svc_overlap
           Examples.the_query Samples.evidence Samples.caller_metadata []
           "Yes." Hev Ha).
Defined.

(** X14 on one summary, a scored chunk and an unscored chunk. *)
Lemma comprehensive_confidence_at_least_half_of_summary_weight_witness :
  let chunks := [Examples.chunk_a; Examples.chunk_unscored] in
  Forall (λ c, (0 <= default 0.7 (chunk_score c))%Q) chunks
  ∧ (0.45 <= _calculate_confidence
               (_create_citations [Examples.summary_1] chunks)
               [Examples.summary_1])%Q.
Proof.
  intros chunks.
  assert (Forall (λ c, (0 <= default 0.7 (chunk_score c))%Q) chunks) as Hpos.
  { repeat (constructor; [done|]). constructor. }
  split; [exact Hpos|].
  exact (comprehensive_confidence_at_least_half_of_summary_weight
           Examples.summary_1 [] chunks Hpos).
Defined.

(** X15 on the store of one summary and six chunks. *)
Lemma process_query_stamps_its_own_counts_witness :
  search Examples.svc_overlap Examples.the_query []
  = (Ok Samples.overlap_found, Samples.overlap_trace)
  ∧ ∃ response t',
      process_query Examples.svc_overlap Examples.the_query None []
      = (Ok response, t')
      ∧ r_metadata response !! "processed_at"
        = Some (Py.PStr (utcnow Examples.svc_overlap (length t')))
      ∧ r_metadata response !! "sources_used"
        = Some (Py.PDict
                  [("summaries",
                    Py.PInt (Z.of_nat
                               (length (sr_summaries Samples.overlap_found))));
                   ("chunks",
                    Py.PInt (Z.of_nat
                               (length (sr_chunks Samples.overlap_found))))]).
Proof.
  assert (search Examples.svc_overlap Examples.the_query []
          = (Ok Samples.overlap_found, Samples.overlap_trace)) as Hs
    by (by vm_compute).
  split; [exact Hs|].
  exact (process_query_stamps_its_own_counts Examples.svc_overlap
           Examples.the_query None [] Samples.overlap_found
           Samples.overlap_trace Hs).
Defined.

(** X19 on a text with runs of spaces and of line feeds. *)
Lemma normalize_whitespace_idempotent_without_cr_witness :
  let text := "  loan   terms" +:+ LF3 +:+ LF1 +:+ "apply " in
  contains CR1 text = false
  ∧ _normalize_whitespace (_normalize_whitespace text)
    = _normalize_whitespace text.
Proof.
  intros text.
  assert (contains CR1 text = false) as Hcr by reflexivity.
  split; [exact Hcr|].
  exact (normalize_whitespace_idempotent_without_cr text Hcr).
Defined.

(** X21 on a component path of three parts. *)
Lemma extract_root_id_round_trip_witness :
  contains "_" "doc42" = false
  ∧ _extract_root_id ("doc42" +:+ "_" +:+ "section_3") = "doc42".
Proof.
  assert (contains "_" "doc42" = false) as Hroot by reflexivity.
  split; [exact Hroot|].
  exact (extract_root_id_round_trip "doc42" "section_3" Hroot).
Defined.

(** X23 on a response of one well-formed chunk. *)
Lemma parsed_chunks_were_valid_as_sent_witness :
  let chunks :=
    [Py.PDict [("content", Py.PStr ("Step 1" +:+ LF1 +:+ "Step 2"));
               ("chunk_metadata", Py.PDict [])]] in
  _parse_chunks Samples.toy_json_loads Samples.no_second_attempt
    Samples.good_response = inr chunks
  ∧ chunks ≠ []
  ∧ Forall2 (accepted_as_object Samples.toy_json_loads)
      (raw_chunks_of Samples.good_response) chunks.
Proof.
  intros chunks.
  assert (_parse_chunks Samples.toy_json_loads Samples.no_second_attempt
            Samples.good_response = inr chunks) as Hrun by (by vm_compute).
  split; [exact Hrun|].
  exact (parsed_chunks_were_valid_as_sent Samples.toy_json_loads
           Samples.no_second_attempt Samples.good_response chunks Hrun).
Defined.

(** X24 on a conversation with one earlier exchange and the bound 10 of
    the chat API. *)
Lemma update_history_keeps_the_latest_witness :
  0 < 10
  ∧ ∃ history,
      _update_history Samples.conversations 10 "c-1" "and rates?" "4%."
        "2024-01-01T00:01:00" !! "c-1" = Some history
      ∧ length history
        = S (length (default [] (Samples.conversations !! "c-1"))) `min` 10
      ∧ last history
        = Some (mkHistoryEntry "and rates?" "4%." "2024-01-01T00:01:00")
      ∧ history `suffix_of`
          default [] (Samples.conversations !! "c-1")
          ++ [mkHistoryEntry "and rates?" "4%." "2024-01-01T00:01:00"].
Proof.
  assert (0 < 10) as Hmax by lia.
  split; [exact Hmax|].
  exact (update_history_keeps_the_latest Samples.conversations 10 "c-1"
           "and rates?" "4%." "2024-01-01T00:01:00" Hmax).
Defined.

(** X25 on a new conversation beside an old one. *)
Lemma update_history_leaves_other_conversations_witness :
  "c-1" ≠ "c-2"
  ∧ _update_history Samples.conversations 10 "c-2" "hello" "Hi!"
      "2024-01-01T00:02:00" !! "c-1"
    = Samples.conversations !! "c-1".
Proof.
  assert ("c-1" ≠ "c-2") as Hne by done.
  split; [exact Hne|].
  exact (update_history_leaves_other_conversations Samples.conversations 10
           "c-2" "c-1" "hello" "Hi!" "2024-01-01T00:02:00" Hne).
Defined.
